(** * State-of-cloud report generator: a shallow embedding

    Source: [src/main/internal/python_scripts/state_of_cloud_report/main.py].

    The script loads five JSON extracts, derives summary tables from them,
    builds a markdown document in memory through an [MdUtils] object and
    writes it once, at the very end, with [create_md_file].

    Layout of this development:
    - Python values, exceptions and the error / world monads;
    - the fragments of pandas, mdutils, datetime and getopt the script uses;
    - the helper interface ([Helpers]) and the script itself
      ([create_markdown_file], [main]);
    - helper implementations modelled from the specification
      ([SpecHelpers]);
    - the theorems. *)

From Stdlib Require Import String Ascii List Bool Arith ZArith QArith Lia.
Import ListNotations.

Local Open Scope string_scope.
Local Open Scope list_scope.
Local Open Scope nat_scope.

Set Implicit Arguments.
Set Warnings "-register-all".

(* ================================================================== *)
(** * Python values *)
(* ================================================================== *)

(** The double quote character, written through its code point. *)
Definition dq : string := String (ascii_of_nat 34) EmptyString.

(** What [json.loads] returns: [None], [bool], [int], [float], [str],
    [list] and [dict] (a dict keeps insertion order, hence an association
    list).  Non-finite floats are left out. *)
Inductive json : Type :=
| JNull
| JBool (b : bool)
| JInt (z : Z)
| JFloat (q : Q)
| JStr (s : string)
| JList (l : list json)
| JDict (d : list (string * json)).

Definition pydict : Type := list (string * json).

(** [type(v).__name__]. *)
Definition type_name (v : json) : string :=
  match v with
  | JNull => "NoneType"
  | JBool _ => "bool"
  | JInt _ => "int"
  | JFloat _ => "float"
  | JStr _ => "str"
  | JList _ => "list"
  | JDict _ => "dict"
  end.

(** [bool(v)], the test performed by [if v:]. *)
Definition truthy (v : json) : bool :=
  match v with
  | JNull => false
  | JBool b => b
  | JInt z => negb (Z.eqb z 0)
  | JFloat q => negb (Qeq_bool q 0)
  | JStr s => negb (String.eqb s "")
  | JList l => negb (Nat.eqb (List.length l) 0)
  | JDict d => negb (Nat.eqb (List.length d) 0)
  end.

(** [if xs:] on a list and [if d:] on a dict. *)
Definition nonempty {A : Type} (l : list A) : bool :=
  match l with
  | [] => false
  | _ :: _ => true
  end.

(** [d.get(k)] on an insertion-ordered dict. *)
Fixpoint dict_get {V : Type} (k : string) (d : list (string * V)) : option V :=
  match d with
  | [] => None
  | (k', v) :: d' => if String.eqb k k' then Some v else dict_get k d'
  end.

Definition dict_has {V : Type} (k : string) (d : list (string * V)) : bool :=
  match dict_get k d with
  | Some _ => true
  | None => false
  end.

(* ================================================================== *)
(** * Exceptions and the error monad *)
(* ================================================================== *)

(** The exception classes the script can meet; every one of them derives
    from [Exception].  [HelperError] stands for whatever class a helper
    module raises. *)
Inductive exn : Type :=
| FileNotFoundError (path : string)
| JSONDecodeError (msg : string)
| KeyError (key : string)
| TypeError (msg : string)
| UnboundLocalError (name : string)
| NameError (name : string)
| GetoptError (msg : string)
| HelperError (cls msg : string)
| Exception (msg : string).

(** [str(e)], as interpolated by [f"Error: {e}"].  [KeyError] shows the
    [repr] of its key (the script only uses keys free of quotes); the
    [UnboundLocalError] wording is the one of CPython 3.11 and later. *)
Definition exn_str (e : exn) : string :=
  match e with
  | FileNotFoundError path =>
      "[Errno 2] No such file or directory: '" ++ path ++ "'"
  | JSONDecodeError msg => msg
  | KeyError key => "'" ++ key ++ "'"
  | TypeError msg => msg
  | UnboundLocalError name =>
      "cannot access local variable '" ++ name
      ++ "' where it is not associated with a value"
  | NameError name => "name '" ++ name ++ "' is not defined"
  | GetoptError msg => msg
  | HelperError _ msg => msg
  | Exception msg => msg
  end.

Inductive Result (A : Type) : Type :=
| Ok (a : A)
| Raise (e : exn).

Arguments Ok {A} a.
Arguments Raise {A} e.

Definition is_ok {A : Type} (r : Result A) : bool :=
  match r with
  | Ok _ => true
  | Raise _ => false
  end.

Module ResultMonad.

Definition ret {A : Type} (a : A) : Result A := Ok a.

Definition bind {A B : Type} (r : Result A) (k : A -> Result B) : Result B :=
  match r with
  | Ok a => k a
  | Raise e => Raise e
  end.

Fixpoint mapM {A B : Type} (f : A -> Result B) (l : list A)
  : Result (list B) :=
  match l with
  | [] => Ok []
  | x :: l' =>
      bind (f x) (fun y => bind (mapM f l') (fun ys => Ok (y :: ys)))
  end.

End ResultMonad.

Declare Scope result_scope.
Delimit Scope result_scope with result.
Notation "x <- c ;; k" := (ResultMonad.bind c (fun x => k))
  (at level 61, c at next level, right associativity) : result_scope.

(** A local variable that is only assigned inside an [if]: [None] is the
    unassigned state, and reading it raises [UnboundLocalError]. *)
Definition read_local {A : Type} (name : string) (v : option A) : Result A :=
  match v with
  | Some a => Ok a
  | None => Raise (UnboundLocalError name)
  end.

(** The same for a module-level name, whose failure is [NameError]. *)
Definition read_global {A : Type} (name : string) (v : option A) : Result A :=
  match v with
  | Some a => Ok a
  | None => Raise (NameError name)
  end.

(** [d[k]] on a dict. *)
Definition dict_getitem {V : Type} (d : list (string * V)) (k : string)
  : Result V :=
  match dict_get k d with
  | Some v => Ok v
  | None => Raise (KeyError k)
  end.

(** [len(v)]. *)
Definition py_len (v : json) : Result nat :=
  match v with
  | JStr s => Ok (String.length s)
  | JList l => Ok (List.length l)
  | JDict d => Ok (List.length d)
  | _ => Raise (TypeError ("object of type '" ++ type_name v ++ "' has no len()"))
  end.

(* ================================================================== *)
(** * pandas: the fragment used on the drift extract *)
(* ================================================================== *)

(** A cell is a value or pandas' missing marker. *)
Inductive cell : Type :=
| NaN
| Val (v : json).

(** A frame, column-major: the length of its index and its named columns. *)
Record DataFrame : Type := mkDataFrame {
  index_len : nat;
  columns : list (string * list cell)
}.

(** [pd.DataFrame()]. *)
Definition DataFrame_empty : DataFrame := mkDataFrame 0 [].

(** [df.empty]: some axis has length zero. *)
Definition df_empty (df : DataFrame) : bool :=
  Nat.eqb (index_len df) 0 || negb (nonempty (columns df)).

(** The column labels of [pd.DataFrame(records)]: the keys of the
    records, each once, in order of first appearance. *)
Fixpoint add_keys (seen : list string) (r : pydict) : list string :=
  match r with
  | [] => seen
  | (k, _) :: r' =>
      if existsb (String.eqb k) seen then add_keys seen r'
      else add_keys (seen ++ [k]) r'
  end.

Definition record_keys (records : list pydict) : list string :=
  fold_left add_keys records [].

Definition cell_of (k : string) (r : pydict) : cell :=
  match dict_get k r with
  | Some v => Val v
  | None => NaN
  end.

(** [pd.DataFrame(list_of_dicts)]: one row per record; a key a record
    lacks is filled with [NaN]. *)
Definition DataFrame_of_records (records : list pydict) : DataFrame :=
  mkDataFrame (List.length records)
    (map (fun k => (k, map (cell_of k) records)) (record_keys records)).

(** [df[label]]. *)
Definition df_getitem (df : DataFrame) (label : string)
  : Result (list cell) :=
  dict_getitem (columns df) label.

(** [df[label] = series]: replaces the column when the label exists,
    appends it otherwise. *)
Fixpoint set_column (label : string) (s : list cell)
  (cols : list (string * list cell)) : list (string * list cell) :=
  match cols with
  | [] => [(label, s)]
  | (l, c) :: cols' =>
      if String.eqb l label then (l, s) :: cols'
      else (l, c) :: set_column label s cols'
  end.

Definition df_setitem (df : DataFrame) (label : string) (s : list cell)
  : DataFrame :=
  mkDataFrame (index_len df) (set_column label s (columns df)).

(** [isna]: [NaN] and [None] both count as missing. *)
Definition is_na (c : cell) : bool :=
  match c with
  | NaN => true
  | Val JNull => true
  | Val _ => false
  end.

(** One position of [series + other] where at least one operand is known
    to be a string or missing, which is the only way the script uses
    [+].  A missing operand yields [NaN] (pandas masks the position out);
    two strings concatenate; a string against anything else is the
    [TypeError] of the scalar operation. *)
Definition add_cells (a b : cell) : Result cell :=
  if is_na a || is_na b then Ok NaN
  else
    match a, b with
    | Val (JStr x), Val (JStr y) => Ok (Val (JStr (x ++ y)))
    | Val (JStr _), Val v =>
        Raise (TypeError ("can only concatenate str (not " ++ dq
                          ++ type_name v ++ dq ++ ") to str"))
    | Val u, Val v =>
        Raise (TypeError ("unsupported operand type(s) for +: '"
                          ++ type_name u ++ "' and '" ++ type_name v ++ "'"))
    | _, _ => Ok NaN
    end.

(** [series + "literal"]. *)
Definition series_add_str (s : list cell) (lit : string)
  : Result (list cell) :=
  ResultMonad.mapM (fun c => add_cells c (Val (JStr lit))) s.

(** [series + series] over the same index. *)
Definition series_add (s t : list cell) : Result (list cell) :=
  ResultMonad.mapM (fun p => add_cells (fst p) (snd p)) (combine s t).

(* ================================================================== *)
(** * mdutils: the document under construction *)
(* ================================================================== *)

(** What the builder methods append to the document text, kept as
    structured items rather than rendered markdown. *)
Inductive MdItem : Type :=
| Header (level : nat) (title : string) (style : string) (in_toc : bool)
| Line (text : string)
| Table (df : DataFrame).

(** The [MdUtils] object: target file, title, the table of contents once
    requested (its title and entries) and the items appended so far. *)
Record MdUtils : Type := mkMdUtils {
  file_name : string;
  title : string;
  table_of_contents : option (string * list string);
  body : list MdItem
}.

(** [MdUtils(file_name=..., title=...)]. *)
Definition MdUtils_new (fname ttl : string) : MdUtils :=
  mkMdUtils fname ttl None [].

Definition append_item (md : MdUtils) (it : MdItem) : MdUtils :=
  mkMdUtils (file_name md) (title md) (table_of_contents md)
    (body md ++ [it]).

(** [md.new_header(level, title, style, add_table_of_contents)]; the
    last two default to ['atx'] and ['y'].  The script only uses levels
    1, 2 and 4, all valid for the atx style. *)
Definition new_header (md : MdUtils) (level : nat) (ttl : string)
  (style : string) (add_table_of_contents : bool) : MdUtils :=
  append_item md (Header level ttl style add_table_of_contents).

(** [md.new_line(text)]; [text] defaults to the empty string. *)
Definition new_line (md : MdUtils) (text : string) : MdUtils :=
  append_item md (Line text).

(** [md.new_table(...)] fed with the cells of a frame, as the helper
    modules use it. *)
Definition new_table (md : MdUtils) (df : DataFrame) : MdUtils :=
  append_item md (Table df).

(** The titles a table of contents of the given depth lists: the headers
    registered for it, down to that level. *)
Definition toc_entries (depth : nat) (items : list MdItem) : list string :=
  flat_map (fun it =>
    match it with
    | Header level ttl _ true => if level <=? depth then [ttl] else []
    | _ => []
    end) items.

(** [md.new_table_of_contents(table_title, depth)]: computed from the
    headers emitted so far, stored apart from the body (it is rendered
    before it). *)
Definition new_table_of_contents (md : MdUtils) (table_title : string)
  (depth : nat) : MdUtils :=
  mkMdUtils (file_name md) (title md)
    (Some (table_title, toc_entries depth (body md))) (body md).

(** The headers of a document, in order of emission. *)
Definition headings (items : list MdItem) : list string :=
  flat_map (fun it =>
    match it with
    | Header _ ttl _ _ => [ttl]
    | _ => []
    end) items.

(* ================================================================== *)
(** * datetime *)
(* ================================================================== *)

Record datetime : Type := mkDatetime {
  year : N;
  month : N;
  day : N;
  hour : N;
  minute : N
}.

(** The ranges of a [datetime] value, with the year at four digits (any
    clock reading since year 1000). *)
Definition valid_datetime (t : datetime) : Prop :=
  (1000 <= year t <= 9999 /\ 1 <= month t <= 12 /\ 1 <= day t <= 31
   /\ hour t <= 23 /\ minute t <= 59)%N.

Definition digit_char (d : N) : ascii := ascii_of_N (48 + d).

(** Decimal digits of [n], most significant first; [fuel] bounds the
    number of digits. *)
Fixpoint decimal_aux (fuel : nat) (n : N) (acc : string) : string :=
  match fuel with
  | O => acc
  | S fuel' =>
      let acc' := String (digit_char (n mod 10)) acc in
      if (n / 10 =? 0)%N then acc' else decimal_aux fuel' (n / 10)%N acc'
  end.

(** [str(n)]: a number has no more digits than its value plus one. *)
Definition decimal (n : N) : string := decimal_aux (S (N.to_nat n)) n "".

(** The [%H], [%M], [%m] and [%d] directives: at least two digits, zero
    padded. *)
Definition pad2 (n : N) : string :=
  if (n <? 10)%N then "0" ++ decimal n else decimal n.

(** [t.strftime('%H:%M UTC on %Y-%m-%d')]. *)
Definition strftime_report (t : datetime) : string :=
  pad2 (hour t) ++ ":" ++ pad2 (minute t) ++ " UTC on "
  ++ decimal (year t) ++ "-" ++ pad2 (month t) ++ "-" ++ pad2 (day t).

Definition is_digit (c : ascii) : bool :=
  let n := N_of_ascii c in ((48 <=? n) && (n <=? 57))%N.

(** A pattern of characters: [None] stands for any decimal digit. *)
Fixpoint matches_pattern (p : list (option ascii)) (s : string) : bool :=
  match p, s with
  | [], EmptyString => true
  | None :: p', String c s' => is_digit c && matches_pattern p' s'
  | Some a :: p', String c s' => Ascii.eqb a c && matches_pattern p' s'
  | _, _ => false
  end.

Definition literal (s : string) : list (option ascii) :=
  map Some (list_ascii_of_string s).

Definition digits (n : nat) : list (option ascii) := repeat None n.

(** The shape [HH:MM UTC on YYYY-MM-DD]. *)
Definition timestamp_pattern : list (option ascii) :=
  digits 2 ++ literal ":" ++ digits 2 ++ literal " UTC on "
  ++ digits 4 ++ literal "-" ++ digits 2 ++ literal "-" ++ digits 2.

Definition is_timestamp (s : string) : bool :=
  matches_pattern timestamp_pattern s.

(* ================================================================== *)
(** * getopt *)
(* ================================================================== *)

Module Getopt.

Definition startswith (s p : string) : bool := String.prefix p s.

(** [s[n:]]. *)
Fixpoint drop (n : nat) (s : string) : string :=
  match n, s with
  | S n', String _ s' => drop n' s'
  | _, _ => s
  end.

(** [opt.index('=')] with the two slices around it. *)
Fixpoint split_eq (s : string) : option (string * string) :=
  match s with
  | EmptyString => None
  | String c s' =>
      if Ascii.eqb c "=" then Some (EmptyString, s')
      else
        match split_eq s' with
        | Some (a, b) => Some (String c a, b)
        | None => None
        end
  end.

(** [s[:-1]] when [s] ends with ['='], for a non-empty [s]. *)
Fixpoint strip_eq (s : string) : option string :=
  match s with
  | EmptyString => None
  | String c EmptyString =>
      if Ascii.eqb c "=" then Some EmptyString else None
  | String c s' =>
      match strip_eq s' with
      | Some t => Some (String c t)
      | None => None
      end
  end.

Definition long_has_args (opt : string) (longopts : list string)
  : Result (bool * string) :=
  let possibilities := filter (fun o => startswith o opt) longopts in
  if negb (nonempty possibilities) then
    Raise (GetoptError ("option --" ++ opt ++ " not recognized"))
  else if existsb (String.eqb opt) possibilities then Ok (false, opt)
  else if existsb (String.eqb (opt ++ "=")) possibilities then
    Ok (true, opt)
  else
    match possibilities with
    | [unique_match] =>
        match strip_eq unique_match with
        | Some stripped => Ok (true, stripped)
        | None => Ok (false, unique_match)
        end
    | _ => Raise (GetoptError ("option --" ++ opt ++ " not a unique prefix"))
    end.

(** [do_longs]: [next] is the argument following the option, if any;
    the flag returned tells whether it was consumed as the option's
    value. *)
Definition do_longs (opts : list (string * string)) (opt : string)
  (longopts : list string) (next : option string)
  : Result (list (string * string) * bool) :=
  let '(opt, optarg) :=
    match split_eq opt with
    | Some (o, a) => (o, Some a)
    | None => (opt, None)
    end in
  (p <- long_has_args opt longopts ;;
   let '(has_arg, opt) := p in
   if has_arg then
     match optarg with
     | Some a => Ok (opts ++ [(("--" ++ opt)%string, a)], false)
     | None =>
         match next with
         | Some a => Ok (opts ++ [(("--" ++ opt)%string, a)], true)
         | None =>
             Raise (GetoptError ("option --" ++ opt ++ " requires argument"))
         end
     end
   else
     match optarg with
     | Some _ =>
         Raise (GetoptError
                  ("option --" ++ opt ++ " must not have an argument"))
     | None => Ok (opts ++ [(("--" ++ opt)%string, "")], false)
     end)%result.

Fixpoint short_has_arg (opt : ascii) (shortopts : string) : Result bool :=
  match shortopts with
  | EmptyString =>
      Raise (GetoptError
               ("option -" ++ String opt "" ++ " not recognized"))
  | String c rest =>
      if Ascii.eqb opt c && negb (Ascii.eqb c ":")
      then Ok (startswith rest ":")
      else short_has_arg opt rest
  end.

Fixpoint do_shorts (opts : list (string * string)) (optstring : string)
  (shortopts : string) (next : option string)
  : Result (list (string * string) * bool) :=
  match optstring with
  | EmptyString => Ok (opts, false)
  | String c rest =>
      (has_arg <- short_has_arg c shortopts ;;
       if has_arg then
         match rest with
         | EmptyString =>
             match next with
             | Some a => Ok (opts ++ [(("-" ++ String c "")%string, a)], true)
             | None =>
                 Raise (GetoptError
                          ("option -" ++ String c ""
                           ++ " requires argument"))
             end
         | _ => Ok (opts ++ [(("-" ++ String c "")%string, rest)], false)
         end
       else do_shorts (opts ++ [(("-" ++ String c "")%string, "")]) rest
              shortopts next)%result
  end.

(** The loop of [getopt.getopt]: options are read until the first
    argument that is not one; [--] ends them. *)
Fixpoint getopt_loop (opts : list (string * string)) (args : list string)
  (shortopts : string) (longopts : list string)
  : Result (list (string * string) * list string) :=
  match args with
  | [] => Ok (opts, [])
  | a :: rest =>
      if startswith a "-" && negb (String.eqb a "-") then
        if String.eqb a "--" then Ok (opts, rest)
        else
          (r <- (if startswith a "--"
                 then do_longs opts (drop 2 a) longopts (hd_error rest)
                 else do_shorts opts (drop 1 a) shortopts (hd_error rest)) ;;
           let '(opts', consumed) := r in
           match rest with
           | [] => Ok (opts', [])
           | _ :: rest' =>
               if (consumed : bool)
               then getopt_loop opts' rest' shortopts longopts
               else getopt_loop opts' rest shortopts longopts
           end)%result
      else Ok (opts, args)
  end.

Definition getopt (args : list string) (shortopts : string)
  (longopts : list string)
  : Result (list (string * string) * list string) :=
  getopt_loop [] args shortopts longopts.

End Getopt.

(* ================================================================== *)
(** * The world and its monad *)
(* ================================================================== *)

(** A mapping file as [open] and [json.loads] see it: absent, present
    with text that is not JSON (with the decoder's message), or holding
    a value. *)
Inductive FileState (A : Type) : Type :=
| Missing
| Malformed (msg : string)
| Holds (a : A).

Arguments Missing {A}.
Arguments Malformed {A} msg.
Arguments Holds {A} a.

(** The five extracts under [mappings/].  The drift extract is, as the
    script names it, a list of dicts. *)
Record Mappings : Type := mkMappings {
  new_resources_to_documents : FileState json;
  resources_to_cloud_actions : FileState json;
  division_to_cost_estimates : FileState json;
  division_to_security_scan : FileState json;
  drift_resources_differences : FileState (list pydict)
}.

(** The part of the outside world the script touches: the mapping files
    and the clock (read), the sink calls of [create_md_file], the lines
    printed and the directories made (written). *)
Record World : Type := mkWorld {
  mappings : Mappings;
  clock : datetime;
  written : list (string * MdUtils);
  stdout : list string;
  directories : list string
}.

Definition M (A : Type) : Type := World -> Result A * World.

Module WorldMonad.

Definition ret {A : Type} (a : A) : M A := fun w => (Ok a, w).

Definition bind {A B : Type} (m : M A) (k : A -> M B) : M B :=
  fun w =>
    match m w with
    | (Ok a, w') => k a w'
    | (Raise e, w') => (Raise e, w')
    end.

Definition raise {A : Type} (e : exn) : M A := fun w => (Raise e, w).

(** A computation without effects. *)
Definition lift {A : Type} (r : Result A) : M A := fun w => (r, w).

(** [try: body  except Exception as e: handler(e)]. *)
Definition try_except {A : Type} (body : M A) (handler : exn -> M A) : M A :=
  fun w =>
    match body w with
    | (Ok a, w') => (Ok a, w')
    | (Raise e, w') => handler e w'
    end.

End WorldMonad.

Declare Scope world_scope.
Delimit Scope world_scope with world.
Notation "x <- c ;; k" := (WorldMonad.bind c (fun x => k))
  (at level 61, c at next level, right associativity) : world_scope.
Notation "c ;;; k" := (WorldMonad.bind c (fun _ => k))
  (at level 61, right associativity) : world_scope.

(** [with open(path, "r") as f: json.loads(f.read())]. *)
Definition json_load {A : Type} (path : string)
  (file : Mappings -> FileState A) : M A :=
  fun w =>
    match file (mappings w) with
    | Missing => (Raise (FileNotFoundError path), w)
    | Malformed msg => (Raise (JSONDecodeError msg), w)
    | Holds a => (Ok a, w)
    end.

(** [datetime.now()]. *)
Definition datetime_now : M datetime := fun w => (Ok (clock w), w).

(** [md.create_md_file()]: the one call that reaches the output sink. *)
Definition create_md_file (md : MdUtils) : M unit :=
  fun w =>
    (Ok tt,
     mkWorld (mappings w) (clock w) (written w ++ [(file_name md, md)])
       (stdout w) (directories w)).

(** [print(text)]. *)
Definition print (text : string) : M unit :=
  fun w =>
    (Ok tt,
     mkWorld (mappings w) (clock w) (written w) (stdout w ++ [text])
       (directories w)).

(** [os.makedirs(path, exist_ok=True)]. *)
Definition os_makedirs (path : string) : M unit :=
  fun w =>
    (Ok tt,
     mkWorld (mappings w) (clock w) (written w) (stdout w)
       (if existsb (String.eqb path) (directories w) then directories w
        else directories w ++ [path])).

(* ================================================================== *)
(** * The script *)
(* ================================================================== *)

(** The functions imported from the [helpers] package, which the script
    calls but does not define.  Each may raise; none of them has access
    to the world.  [actor_aux] is the type of the second component of
    the pair [create_markdown_table_cloud_actor_summary] returns, which
    the script discards. *)
Record Helpers : Type := mkHelpers {
  actor_aux : Type;
  process_new_resources : json -> Result (list (string * DataFrame));
  process_cloud_actor_actions : json -> Result DataFrame;
  process_pricing_data : json -> json -> Result (list (string * DataFrame));
  division_to_security_scan_to_df_dict :
    json -> Result (list (string * DataFrame));
  create_markdown_table_security_scans :
    MdUtils -> list (string * DataFrame) -> Result MdUtils;
  create_markdown_table_cost_summary : MdUtils -> DataFrame -> Result MdUtils;
  create_new_resource_tabular_breakdowns_with_cost :
    MdUtils -> list (string * DataFrame) -> DataFrame -> Result MdUtils;
  create_managed_drift_markdown : DataFrame -> MdUtils -> Result MdUtils;
  create_markdown_table_cloud_actor_summary :
    DataFrame -> MdUtils -> Result (MdUtils * actor_aux)
}.

(** Lines 50-61: the drift frame and its derived [ResourcePath] column. *)
Definition managed_drift_frame (managed_drift_list_of_dicts : list pydict)
  : Result DataFrame :=
  if nonempty managed_drift_list_of_dicts then
    let managed_drift_df := DataFrame_of_records managed_drift_list_of_dicts in
    (module_name <- df_getitem managed_drift_df "ModuleName" ;;
     s1 <- series_add_str module_name (" (module) " ++ dq) ;;
     resource_type <- df_getitem managed_drift_df "ResourceType" ;;
     s2 <- series_add s1 resource_type ;;
     s3 <- series_add_str s2 (dq ++ " " ++ dq) ;;
     resource_name <- df_getitem managed_drift_df "ResourceName" ;;
     s4 <- series_add s3 resource_name ;;
     s5 <- series_add_str s4 dq ;;
     Ok (df_setitem managed_drift_df "ResourcePath" s5))%result
  else Ok DataFrame_empty.

(** Lines 84-90: the introduction paragraph. *)
Definition intro_text (job_name : string) : string :=
  "Your job, titled " ++ job_name ++ ", has run. Of the resources "
  ++ "the job scans, at least one resource was identified to have drifted or be outside of Terraform control. "
  ++ "While code has been generated of the Terraform code and corresponding import statements needed to bring these "
  ++ "resources under Terraform control, below you will find a summary of the gaps identified in your "
  ++ "current IaC posture.".

(** Lines 159-162 and 164-169: the two disclaimer paragraphs. *)
Definition disclaimer_usage : string :=
  "*Indicates that a resource's cost is usage based. Since we currently do not infer/have knowledge of usage, "
  ++ "costs may be material although indicated as 0 here.".

Definition disclaimer_scope : string :=
  "This report presents information on the state of your cloud at a point in time and as best Cloud Concierge"
  ++ " is able to determine. Cloud Concierge does not currently scan every cloud resource for every "
  ++ " cloud provider. For a list of supported resources,"
  ++ " please see our [documentation](https://www.docs.dragondrop.cloud/).".

Section Script.

Variable H : Helpers.

Import WorldMonad.

(** [create_markdown_file(job_name, markdown_text_output_path)],
    statement by statement.  [markdown_file] is rebound at each
    builder call; the two locals assigned only under an [if] are
    options. *)
Definition create_markdown_file
  (job_name markdown_text_output_path : string) : M unit :=
  (new_resources <-
     json_load "mappings/new-resources-to-documents.json"
       new_resources_to_documents ;;
   resources_to_cloud_actions <-
     json_load "mappings/resources-to-cloud-actions.json"
       resources_to_cloud_actions ;;
   divisions_to_cost_estimates <-
     json_load "mappings/division-to-cost-estimates.json"
       division_to_cost_estimates ;;
   divisions_to_security_scan <-
     json_load "mappings/division-to-security-scan.json"
       division_to_security_scan ;;
   managed_drift_list_of_dicts <-
     json_load "mappings/drift-resources-differences.json"
       drift_resources_differences ;;
   (* 50-61 *)
   managed_drift_df <- lift (managed_drift_frame managed_drift_list_of_dicts) ;;
   (* 63-65 *)
   resource_count_dict_of_dfs <-
     lift (n <- py_len new_resources ;;
           if 0 <? n then process_new_resources H new_resources
           else Ok [])%result ;;
   (* 67-70 *)
   actor_action_count_df <-
     lift (if truthy resources_to_cloud_actions
           then (df <- process_cloud_actor_actions H
                         resources_to_cloud_actions ;;
                 Ok (Some df))%result
           else Ok None) ;;
   (* 72-76 *)
   cost_summary_dict_of_dfs <-
     lift (if truthy divisions_to_cost_estimates
           then (d <- process_pricing_data H divisions_to_cost_estimates
                        new_resources ;;
                 Ok (Some d))%result
           else Ok None) ;;
   (* 78-81 *)
   let markdown_file :=
     MdUtils_new (markdown_text_output_path ++ "/report.md")
       (job_name ++ " - State of Scanned Cloud Resources") in
   (* 83-90 *)
   let markdown_file :=
     new_header markdown_file 1 "How to Read this Report" "atx" true in
   let markdown_file := new_line markdown_file (intro_text job_name) in
   (* 92-103 *)
   let markdown_file :=
     new_header markdown_file 1 "Identified Security Risks" "atx" true in
   markdown_file <-
     lift (if truthy divisions_to_security_scan
           then (division_to_security_df_dict <-
                   division_to_security_scan_to_df_dict H
                     divisions_to_security_scan ;;
                 create_markdown_table_security_scans H markdown_file
                   division_to_security_df_dict)%result
           else Ok (new_line markdown_file "Security scan not run.")) ;;
   (* 105-114 *)
   let markdown_file :=
     new_header markdown_file 1 "Calculable Cloud Costs (Monthly)" "atx"
       true in
   markdown_file <-
     lift (if truthy divisions_to_cost_estimates
           then (d <- read_local "cost_summary_dict_of_dfs"
                        cost_summary_dict_of_dfs ;;
                 cost_summary_df <- dict_getitem d "cost_summary" ;;
                 create_markdown_table_cost_summary H markdown_file
                   cost_summary_df)%result
           else Ok (new_line markdown_file "Cost estimation not run.")) ;;
   (* 116-131 *)
   let markdown_file :=
     new_header markdown_file 1 "Resources Outside of Terraform Control"
       "atx" true in
   markdown_file <-
     lift (if 0 <? List.length resource_count_dict_of_dfs
           then (d <- read_local "cost_summary_dict_of_dfs"
                        cost_summary_dict_of_dfs ;;
                 cost_by_provider_by_type_df <-
                   (if nonempty d
                    then dict_getitem d "uncontrolled_cost_by_div_by_type_df"
                    else Ok DataFrame_empty) ;;
                 create_new_resource_tabular_breakdowns_with_cost H
                   markdown_file resource_count_dict_of_dfs
                   cost_by_provider_by_type_df)%result
           else Ok (new_line markdown_file "No new resources found!")) ;;
   (* 133-142 *)
   let markdown_file :=
     new_header markdown_file 1 "Drifted Resources Managed By Terraform"
       "atx" true in
   markdown_file <-
     lift (if negb (df_empty managed_drift_df)
           then create_managed_drift_markdown H managed_drift_df
                  markdown_file
           else Ok (new_line markdown_file
                      "No controlled resources have drifted!")) ;;
   (* 144-156 *)
   let markdown_file :=
     new_header markdown_file 1 "Root Causes of Drift" "atx" true in
   let markdown_file :=
     new_header markdown_file 2 "Cloud Actors Causing Changes" "atx"
       false in
   markdown_file <-
     lift (if truthy resources_to_cloud_actions
           then (df <- read_local "actor_action_count_df"
                         actor_action_count_df ;;
                 r <- create_markdown_table_cloud_actor_summary H df
                        markdown_file ;;
                 Ok (fst r))%result
           else Ok (new_line markdown_file
                      "No identified Cloud Actor actions.")) ;;
   (* 158-173 *)
   let markdown_file :=
     new_header markdown_file 4 "Disclaimer" "atx" false in
   let markdown_file := new_line markdown_file disclaimer_usage in
   let markdown_file := new_line markdown_file "" in
   let markdown_file := new_line markdown_file disclaimer_scope in
   let markdown_file := new_line markdown_file "" in
   now <- datetime_now ;;
   let markdown_file :=
     new_line markdown_file
       ("Created by Cloud Concierge at " ++ strftime_report now) in
   (* 175-177 *)
   let markdown_file :=
     new_table_of_contents markdown_file "Contents" 1 in
   create_md_file markdown_file ;;;
   print "Down creating markdown-styled report.")%world.

(** One step of the [for opt, arg in opts] loop over the two
    module-level names [(job_unique_id, job_name)]. *)
Definition bind_option (globals : option string * option string)
  (oa : string * string) : option string * option string :=
  let '(opt, arg) := oa in
  let '(job_unique_id, job_name) := globals in
  let job_unique_id :=
    if existsb (String.eqb opt) ["-i"; "--job_unique_id"]
    then Some arg else job_unique_id in
  let job_name :=
    if existsb (String.eqb opt) ["-j"; "--job_name"]
    then Some arg else job_name in
  (job_unique_id, job_name).

(** The [__main__] block (lines 180-202). *)
Definition main (argv : list string) : M unit :=
  try_except
    (r <- lift (Getopt.getopt argv "j:i:m:"
                  ["job_name="; "job_unique_id="]) ;;
     let opts := fst r in
     let globals := fold_left bind_option opts (None, None) in
     let markdown_text_output_path := "state_of_cloud/" in
     os_makedirs markdown_text_output_path ;;;
     job_name <- lift (read_global "job_name" (snd globals)) ;;
     create_markdown_file job_name markdown_text_output_path)%world
    (fun e => raise (Exception ("Error: " ++ exn_str e))).

(** What the interpreter does with the outcome of the script: an
    uncaught exception ends the process with status 1 (its message on
    the last line of the traceback), a normal end with status 0. *)
Definition exit_status (r : Result unit) : nat :=
  match r with
  | Ok _ => 0
  | Raise _ => 1
  end.

Definition run_script (argv : list string) (w : World) : nat * World :=
  let '(r, w') := main argv w in (exit_status r, w').

End Script.

(* ================================================================== *)
(** * The helper package *)
(* ================================================================== *)

(** The modules under [helpers/] are not among the sources.  They are
    modelled from the specification: the security helpers and the
    new-resources aggregation in full, the other ones down to the tables
    they hand over, which is all the script looks at.  They serve to run
    the script on concrete inputs; the theorems that quantify over
    [Helpers] do not depend on them. *)
Module SpecHelpers.

Import ResultMonad.

(** Section 7 of the specification: a shape other than the expected
    one is an error that surfaces to the top level. *)
Definition schema_error {A : Type} : Result A :=
  Raise (HelperError "ValueError" "unexpected shape").

Definition as_record (j : json) : Result pydict :=
  match j with
  | JDict d => Ok d
  | _ => schema_error
  end.

Definition as_records (j : json) : Result (list pydict) :=
  match j with
  | JList l => mapM as_record l
  | _ => schema_error
  end.

Definition as_string (j : option json) : Result string :=
  match j with
  | Some (JStr s) => Ok s
  | _ => schema_error
  end.

(** Modelled from the spec: [helpers/security_scanning.py] is missing.
    Section 4.5: the input maps each division to a list of finding
    records; the output is one table per division, in the iteration
    order of the input mapping. *)
Definition division_to_security_scan_to_df_dict (j : json)
  : Result (list (string * DataFrame)) :=
  match j with
  | JDict d =>
      mapM (fun kv =>
              (findings <- as_records (snd kv) ;;
               Ok (fst kv, DataFrame_of_records findings))%result) d
  | _ => schema_error
  end.

(** One division: its heading, then its table. *)
Definition render_division (md : MdUtils) (kv : string * DataFrame)
  : MdUtils :=
  new_table (new_header md 2 (fst kv) "atx" false) (snd kv).

(** Modelled from the spec: [helpers/security_scanning.py] is missing.
    Sections 4.5 and 8: every division of the mapping is rendered as a
    table under its own heading, a division with zero findings as an
    empty table; nothing is rendered for a division that is not in the
    mapping.  (The heading level is not fixed by the spec; 2 is taken,
    below the section's level 1.) *)
Definition create_markdown_table_security_scans (md : MdUtils)
  (d : list (string * DataFrame)) : Result MdUtils :=
  Ok (fold_left render_division d md).

Definition pair_eq_dec (a b : string * string) : {a = b} + {a <> b}.
Proof. decide equality; apply string_dec. Defined.

(** The [(type, name)] pair that identifies a resource descriptor. *)
Definition descriptor_key (r : pydict) : Result (string * string) :=
  (t <- as_string (dict_get "type" r) ;;
   n <- as_string (dict_get "name" r) ;;
   Ok (t, n))%result.

Definition count_cell (n : nat) : cell := Val (JInt (Z.of_nat n)).

(** Modelled from the spec: [helpers/new_resources_and_cost_estimation.py]
    is missing.  Section 4.2: the input maps a grouping key (division)
    to an array of resource descriptors; the output maps each breakdown
    dimension (by division, by resource type) to a count table; every
    division of the input has a row; a resource listed under several
    groupings counts once per type; empty input gives the empty
    mapping. *)
Definition process_new_resources (j : json)
  : Result (list (string * DataFrame)) :=
  match j with
  | JDict [] => Ok []
  | JDict d =>
      (groups <- mapM (fun kv =>
                         (rs <- as_records (snd kv) ;;
                          ks <- mapM descriptor_key rs ;;
                          Ok (fst kv, ks))%result) d ;;
       let resources := nodup pair_eq_dec (flat_map snd groups) in
       let types := nodup string_dec (map fst resources) in
       Ok [("by division",
            mkDataFrame (List.length groups)
              [("division", map (fun g => Val (JStr (fst g))) groups);
               ("count",
                map (fun g => count_cell (List.length (snd g))) groups)]);
           ("by resource type",
            mkDataFrame (List.length types)
              [("type", map (fun t => Val (JStr t)) types);
               ("count",
                map (fun t =>
                       count_cell
                         (count_occ string_dec (map fst resources) t))
                  types)])])%result
  | _ => schema_error
  end.

(** The records of a mapping from keys to arrays of records, in
    order. *)
Definition records_of_mapping (j : json) : Result (list pydict) :=
  match j with
  | JDict d =>
      (groups <- mapM (fun kv => as_records (snd kv)) d ;;
       Ok (concat groups))%result
  | _ => schema_error
  end.

(** Modelled from the spec: [helpers/cloud_actor_identificaton.py] is
    missing.  Section 4.6: the input maps a resource identifier to a
    list of action records and the output is one table.  The grouping
    and ordering of that section are left out (no claim is about the
    rows): the table holds the action records as they come. *)
Definition process_cloud_actor_actions (j : json) : Result DataFrame :=
  (rs <- records_of_mapping j ;; Ok (DataFrame_of_records rs))%result.

(** Modelled from the spec: [helpers/new_resources_and_cost_estimation.py]
    is missing.  Section 4.3 and the two keys the script reads: the
    result holds the per-type table under [cost_summary] and the
    per-division-per-type table under
    [uncontrolled_cost_by_div_by_type_df].  The join and the sums are
    left out (no claim is about the rows): both tables hold the estimate
    records as they come. *)
Definition process_pricing_data (costs new_resources : json)
  : Result (list (string * DataFrame)) :=
  (rs <- records_of_mapping costs ;;
   let t := DataFrame_of_records rs in
   Ok [("cost_summary", t); ("uncontrolled_cost_by_div_by_type_df", t)])%result.

(** Modelled from the spec: [helpers/new_resources_and_cost_estimation.py]
    is missing.  Section 4.7: the cost section is the cost table. *)
Definition create_markdown_table_cost_summary (md : MdUtils)
  (df : DataFrame) : Result MdUtils :=
  Ok (new_table md df).

(** Modelled from the spec: [helpers/new_resources_and_cost_estimation.py]
    is missing.  Section 4.7: the count tables, with cost data when it
    exists and without it otherwise.  The join is left out: one table
    per breakdown, then the cost table when there is one. *)
Definition create_new_resource_tabular_breakdowns_with_cost
  (md : MdUtils) (counts : list (string * DataFrame)) (costs : DataFrame)
  : Result MdUtils :=
  let md := fold_left render_division counts md in
  Ok (if df_empty costs then md else new_table md costs).

(** Modelled from the spec: [helpers/managed_resource_drift.py] is
    missing.  Section 4.4: the drift section is built from the frame and
    its [ResourcePath] column.  The grouping under the path is left out:
    the frame is rendered as one table. *)
Definition create_managed_drift_markdown (df : DataFrame) (md : MdUtils)
  : Result MdUtils :=
  Ok (new_table md df).

(** Modelled from the spec: [helpers/cloud_actor_identificaton.py] is
    missing.  Section 4.7: the actor summary is the actor table; the
    second component of the result is of no use to the script. *)
Definition create_markdown_table_cloud_actor_summary (df : DataFrame)
  (md : MdUtils) : Result (MdUtils * unit) :=
  Ok (new_table md df, tt).

Definition helpers : Helpers :=
  mkHelpers
    process_new_resources
    process_cloud_actor_actions
    process_pricing_data
    division_to_security_scan_to_df_dict
    create_markdown_table_security_scans
    create_markdown_table_cost_summary
    create_new_resource_tabular_breakdowns_with_cost
    create_managed_drift_markdown
    create_markdown_table_cloud_actor_summary.

End SpecHelpers.

(* ================================================================== *)
(** * Concrete inputs *)
(* ================================================================== *)

Module Samples.

Definition clock_reading : datetime := mkDatetime 2024 3 7 9 5.

Definition world_of (m : Mappings) : World := mkWorld m clock_reading [] [] [].

(** All five extracts empty. *)
Definition empty_mappings : Mappings :=
  mkMappings (Holds (JDict [])) (Holds (JDict [])) (Holds (JDict []))
    (Holds (JDict [])) (Holds []).

(** [{"aws": [{"type": "s3_bucket", "name": "x"}]}]. *)
Definition one_bucket : json :=
  JDict [("aws", JList [JDict [("type", JStr "s3_bucket");
                               ("name", JStr "x")]])].

(** New resources found, no cost estimate. *)
Definition bucket_without_costs : Mappings :=
  mkMappings (Holds one_bucket) (Holds (JDict [])) (Holds (JDict []))
    (Holds (JDict [])) (Holds []).

Definition vpc_record : pydict :=
  [("ModuleName", JStr "vpc"); ("ResourceType", JStr "aws_subnet");
   ("ResourceName", JStr "public-1")].

(** A drift record without its [ResourceName]. *)
Definition nameless_record : pydict :=
  [("ModuleName", JStr "db"); ("ResourceType", JStr "aws_db_instance")].

Definition scan : json :=
  JDict [("us-east-1", JList [JDict [("rule", JStr "open-port")]]);
         ("eu-west-1", JList [])].

Definition actions : json :=
  JDict [("aws_s3_bucket.x",
          JList [JDict [("actor", JStr "alice");
                        ("action", JStr "CreateBucket")]])].

(** Every extract but the cost estimates holds data. *)
Definition all_but_costs : Mappings :=
  mkMappings (Holds one_bucket) (Holds actions) (Holds (JDict []))
    (Holds scan) (Holds [vpc_record]).

Definition costs : json :=
  JDict [("aws", JList [JDict [("type", JStr "s3_bucket");
                               ("monthly_cost", JInt 3)]])].

(** Every extract holds data. *)
Definition full_mappings : Mappings :=
  mkMappings (Holds one_bucket) (Holds actions) (Holds costs)
    (Holds scan) (Holds [vpc_record]).

(** One complete drift record and one without a name. *)
Definition partial_drift : Mappings :=
  mkMappings (Holds (JDict [])) (Holds (JDict [])) (Holds (JDict []))
    (Holds (JDict [])) (Holds [vpc_record; nameless_record]).


End Samples.

(* ================================================================== *)
(** * Statements: the vocabulary of the theorems *)
(* ================================================================== *)

(** The path format of the data model:
    [<ModuleName> (module) "<ResourceType>" "<ResourceName>"]. *)
Definition resource_path (m t n : string) : string :=
  m ++ " (module) " ++ dq ++ t ++ dq ++ " " ++ dq ++ n ++ dq.

(** The three fields of a drift record, when it has them as strings. *)
Definition drift_fields (r : pydict) : option (string * string * string) :=
  match dict_get "ModuleName" r, dict_get "ResourceType" r,
        dict_get "ResourceName" r with
  | Some (JStr m), Some (JStr t), Some (JStr n) => Some (m, t, n)
  | _, _, _ => None
  end.

(** The record has the three fields, as strings. *)
Definition complete_record (r : pydict) : bool :=
  match drift_fields r with
  | Some _ => true
  | None => false
  end.

(** The path cell expected for a record. *)
Definition path_cell (r : pydict) : cell :=
  match drift_fields r with
  | Some (m, t, n) => Val (JStr (resource_path m t n))
  | None => NaN
  end.


Definition is_type_error (e : exn) : bool :=
  match e with
  | TypeError _ => true
  | _ => false
  end.

(** The string under a key; empty when there is none. *)
Definition field_of (k : string) (r : pydict) : string :=
  match dict_get k r with
  | Some (JStr s) => s
  | _ => ""
  end.

(** The world after the sink call and the final [print]. *)
Definition after_report (w : World) (md : MdUtils) : World :=
  mkWorld (mappings w) (clock w) (written w ++ [(file_name md, md)])
    (stdout w ++ ["Down creating markdown-styled report."]) (directories w).

(** All five mapping files can be opened and decoded. *)
Definition loadable (m : Mappings) : bool :=
  match new_resources_to_documents m, resources_to_cloud_actions m,
        division_to_cost_estimates m, division_to_security_scan m,
        drift_resources_differences m with
  | Holds _, Holds _, Holds _, Holds _, Holds _ => true
  | _, _, _, _, _ => false
  end.

(** The two ways loading an extract fails. *)
Definition is_load_error (e : exn) : bool :=
  match e with
  | FileNotFoundError _ => true
  | JSONDecodeError _ => true
  | _ => false
  end.

(** The items every report ends with: the disclaimer and the
    generation timestamp. *)
Definition closing_items (now : datetime) : list MdItem :=
  [Header 4 "Disclaimer" "atx" false;
   Line disclaimer_usage;
   Line "";
   Line disclaimer_scope;
   Line "";
   Line ("Created by Cloud Concierge at " ++ strftime_report now)].

(** The document with items added at its end. *)
Definition append_items (md : MdUtils) (items : list MdItem) : MdUtils :=
  mkMdUtils (file_name md) (title md) (table_of_contents md)
    (body md ++ items).

(** The body of a report around its five data-dependent sections. *)
Definition report_body (job : string) (s1 s2 s3 s4 s5 : list MdItem)
  (now : datetime) : list MdItem :=
  [Header 1 "How to Read this Report" "atx" true;
   Line (intro_text job);
   Header 1 "Identified Security Risks" "atx" true] ++ s1
  ++ [Header 1 "Calculable Cloud Costs (Monthly)" "atx" true] ++ s2
  ++ [Header 1 "Resources Outside of Terraform Control" "atx" true] ++ s3
  ++ [Header 1 "Drifted Resources Managed By Terraform" "atx" true] ++ s4
  ++ [Header 1 "Root Causes of Drift" "atx" true;
      Header 2 "Cloud Actors Causing Changes" "atx" false] ++ s5
  ++ closing_items now.

(** The document handed to the sink: target, title, table of contents
    of depth 1 and body. *)
Definition report_document (job path : string) (now : datetime)
  (s1 s2 s3 s4 s5 : list MdItem) : MdUtils :=
  let items := report_body job s1 s2 s3 s4 s5 now in
  mkMdUtils (path ++ "/report.md")
    (job ++ " - State of Scanned Cloud Resources")
    (Some ("Contents", toc_entries 1 items)) items.

(** [md'] is [md] with items added at the end and nothing else changed. *)
Definition appends (md md' : MdUtils) : Prop :=
  exists items, md' = append_items md items.

(** The rendering helpers return the document they were given, with
    their items appended. *)
Record append_only (H : Helpers) : Prop := mkAppendOnly {
  security_appends : forall md d md',
    create_markdown_table_security_scans H md d = Ok md' -> appends md md';
  cost_appends : forall md df md',
    create_markdown_table_cost_summary H md df = Ok md' -> appends md md';
  resources_appends : forall md counts costs md',
    create_new_resource_tabular_breakdowns_with_cost H md counts costs
    = Ok md' -> appends md md';
  drift_appends : forall df md md',
    create_managed_drift_markdown H df md = Ok md' -> appends md md';
  actors_appends : forall df md r,
    create_markdown_table_cloud_actor_summary H df md = Ok r ->
    appends md (fst r)
}.

(** What the security section holds: the placeholder when the mapping is
    falsy, otherwise whatever the two security helpers render. *)
Definition security_section (H : Helpers) (sec : json) (s1 : list MdItem)
  : Prop :=
  if truthy sec
  then exists d m,
      division_to_security_scan_to_df_dict H sec = Ok d
      /\ create_markdown_table_security_scans H m d = Ok (append_items m s1)
  else s1 = [Line "Security scan not run."].

(** Strings of exactly two, respectively four, decimal digits. *)
Definition two_digits (s : string) : Prop :=
  exists a b, s = String (digit_char a) (String (digit_char b) "")
              /\ (a < 10 /\ b < 10)%N.

Definition four_digits (s : string) : Prop :=
  exists a b c d,
    s = String (digit_char a)
          (String (digit_char b)
             (String (digit_char c) (String (digit_char d) "")))
    /\ (a < 10 /\ b < 10 /\ c < 10 /\ d < 10)%N.

(** The text made of the given decimal digits, most significant first. *)
Definition digit_text (ds : list N) : string :=
  fold_right (fun d s => String (digit_char d) s) EmptyString ds.

(** The five extracts are present and hold nothing: the new-resources
    extract has length zero, the three other mappings are falsy and the
    drift list is empty. *)
Definition all_empty (m : Mappings) : bool :=
  match new_resources_to_documents m, resources_to_cloud_actions m,
        division_to_cost_estimates m, division_to_security_scan m,
        drift_resources_differences m with
  | Holds nr, Holds act, Holds cost, Holds sec, Holds [] =>
      match py_len nr with
      | Ok 0 => negb (truthy act) && negb (truthy cost) && negb (truthy sec)
      | _ => false
      end
  | _, _, _, _, _ => false
  end.

(** The report of a run that found nothing: every section holds its
    placeholder sentence. *)
Definition empty_report (job path : string) (now : datetime) : MdUtils :=
  report_document job path now
    [Line "Security scan not run."]
    [Line "Cost estimation not run."]
    [Line "No new resources found!"]
    [Line "No controlled resources have drifted!"]
    [Line "No identified Cloud Actor actions."].

(** The items one division contributes. *)
Definition division_items (kv : string * DataFrame) : list MdItem :=
  [Header 2 (fst kv) "atx" false; Table (snd kv)].

(** The sentence of the introduction that asserts a finding. *)
Definition drift_sentence : string :=
  "at least one resource was identified to have drifted or be outside of Terraform control".

(** A well-shaped scan mapping, seen as typed data: each division with
    its finding records. *)
Definition scan_of (divisions : list (string * list pydict)) : json :=
  JDict (map (fun d => (fst d, JList (map JDict (snd d)))) divisions).

(** What one division of the mapping renders: its heading, then the
    table of its findings. *)
Definition division_section (d : string * list pydict) : list MdItem :=
  [Header 2 (fst d) "atx" false; Table (DataFrame_of_records (snd d))].


(** What the concatenation accepts under a key without raising: a string,
    [None], or no value at all. *)
Definition tolerated (k : string) (r : pydict) : bool :=
  match dict_get k r with
  | None => true
  | Some JNull => true
  | Some (JStr _) => true
  | Some _ => false
  end.


(** A cell that is a string or missing. *)
Definition soft (c : cell) : bool :=
  match c with
  | NaN => true
  | Val JNull => true
  | Val (JStr _) => true
  | Val _ => false
  end.



(** The tests of the option loop: [opt in ["-j", "--job_name"]] and
    [opt in ["-i", "--job_unique_id"]]. *)
Definition names_job (opt : string) : bool :=
  existsb (String.eqb opt) ["-j"; "--job_name"].

Definition names_job_unique_id (opt : string) : bool :=
  existsb (String.eqb opt) ["-i"; "--job_unique_id"].

(** The options of a command line other than the job unique id. *)
Definition without_job_unique_id (opts : list (string * string))
  : list (string * string) :=
  filter (fun oa => negb (names_job_unique_id (fst oa))) opts.

(** The value [job_name] is bound to after the option loop. *)
Definition bound_job_name (opts : list (string * string)) : option string :=
  snd (fold_left bind_option opts (None, None)).

(** [getopt.getopt(argv, "j:i:m:", ["job_name=", "job_unique_id="])]. *)
Definition getopt_script (argv : list string)
  : Result (list (string * string) * list string) :=
  Getopt.getopt argv "j:i:m:" ["job_name="; "job_unique_id="].

(* ================================================================== *)
(** * Statements: further vocabulary *)
(* ================================================================== *)

(** How loading one extract fails, when it does. *)
Definition load_failure {A : Type} (path : string) (f : FileState A)
  : option exn :=
  match f with
  | Missing => Some (FileNotFoundError path)
  | Malformed msg => Some (JSONDecodeError msg)
  | Holds _ => None
  end.

(** The failure of the first extract that cannot be loaded, in the
    order the script opens the five files. *)
Definition first_load_error (m : Mappings) : option exn :=
  match load_failure "mappings/new-resources-to-documents.json"
          (new_resources_to_documents m) with
  | Some e => Some e
  | None =>
  match load_failure "mappings/resources-to-cloud-actions.json"
          (resources_to_cloud_actions m) with
  | Some e => Some e
  | None =>
  match load_failure "mappings/division-to-cost-estimates.json"
          (division_to_cost_estimates m) with
  | Some e => Some e
  | None =>
  match load_failure "mappings/division-to-security-scan.json"
          (division_to_security_scan m) with
  | Some e => Some e
  | None =>
      load_failure "mappings/drift-resources-differences.json"
        (drift_resources_differences m)
  end end end end.

(** What the cost section holds: the placeholder when the extract is
    falsy, otherwise what the cost helper appends for the table stored
    under [cost_summary]. *)
Definition cost_section (H : Helpers) (nr cost : json) (s2 : list MdItem)
  : Prop :=
  if truthy cost
  then exists d df m,
      process_pricing_data H cost nr = Ok d
      /\ dict_getitem d "cost_summary" = Ok df
      /\ create_markdown_table_cost_summary H m df = Ok (append_items m s2)
  else s2 = [Line "Cost estimation not run."].

(** The count tables of the new resources (lines 63-65). *)
Definition resource_counts (H : Helpers) (nr : json)
  : Result (list (string * DataFrame)) :=
  (n <- py_len nr ;;
   if 0 <? n then process_new_resources H nr else Ok [])%result.

(** What the resources section holds: the placeholder when there is no
    count table, otherwise what the breakdown helper appends for the
    count tables and the table stored under
    [uncontrolled_cost_by_div_by_type_df]. *)
Definition resources_section (H : Helpers) (nr cost : json)
  (s3 : list MdItem) : Prop :=
  exists counts,
    resource_counts H nr = Ok counts
    /\ match counts with
       | [] => s3 = [Line "No new resources found!"]
       | _ :: _ =>
           truthy cost = true
           /\ exists d costs m,
               process_pricing_data H cost nr = Ok d
               /\ dict_getitem d "uncontrolled_cost_by_div_by_type_df"
                  = Ok costs
               /\ create_new_resource_tabular_breakdowns_with_cost H m
                    counts costs = Ok (append_items m s3)
       end.

(** What the drift section holds: the placeholder for an empty extract,
    otherwise what the drift helper appends for the frame with its
    derived paths. *)
Definition drift_section (H : Helpers) (records : list pydict)
  (s4 : list MdItem) : Prop :=
  match records with
  | [] => s4 = [Line "No controlled resources have drifted!"]
  | _ :: _ =>
      exists df m,
        managed_drift_frame records = Ok df
        /\ create_managed_drift_markdown H df m = Ok (append_items m s4)
  end.

(** What the actor section holds: the placeholder when the extract is
    falsy, otherwise what the actor helper appends for the aggregated
    actions. *)
Definition actor_section (H : Helpers) (act : json) (s5 : list MdItem)
  : Prop :=
  if truthy act
  then exists df m r,
      process_cloud_actor_actions H act = Ok df
      /\ create_markdown_table_cloud_actor_summary H df m = Ok r
      /\ fst r = append_items m s5
  else s5 = [Line "No identified Cloud Actor actions."].

(** The options that name the job. *)
Definition job_name_options (opts : list (string * string))
  : list (string * string) :=
  filter (fun oa => names_job (fst oa)) opts.

(** The world once [os.makedirs] has run. *)
Definition with_output_directory (w : World) : World :=
  snd (os_makedirs "state_of_cloud/" w).

(** The output directory exists. *)
Definition has_output_directory (w : World) : bool :=
  existsb (String.eqb "state_of_cloud/") (directories w).

(** The exception [main] raises for an inner exception. *)
Definition wrapped (e : exn) : exn := Exception ("Error: " ++ exn_str e).

(** The string contains a double quote. *)
Fixpoint has_quote (s : string) : bool :=
  match s with
  | EmptyString => false
  | String c s' => Ascii.eqb c (ascii_of_nat 34) || has_quote s'
  end.

(** None of the three fields of the record contains a double quote. *)
Definition quote_free_record (r : pydict) : bool :=
  match drift_fields r with
  | Some (m, t, n) => negb (has_quote m || has_quote t || has_quote n)
  | None => false
  end.

(** A parse result with the options read earlier put in front. *)
Definition prepend {A : Type} (opts : list (string * string))
  (r : Result (list (string * string) * A))
  : Result (list (string * string) * A) :=
  match r with
  | Ok (o, a) => Ok (opts ++ o, a)
  | Raise e => Raise e
  end.

(** Further concrete inputs. *)
Module MoreSamples.

(** Only the cost extract holds data. *)
Definition costs_only : Mappings :=
  mkMappings (Holds (JDict [])) (Holds (JDict [])) (Holds Samples.costs)
    (Holds (JDict [])) (Holds []).

(** Helpers whose cost aggregation returns a mapping without any of the
    keys the script reads. *)
Definition keyless_helpers : Helpers :=
  mkHelpers
    SpecHelpers.process_new_resources
    SpecHelpers.process_cloud_actor_actions
    (fun _ _ => Ok [])
    SpecHelpers.division_to_security_scan_to_df_dict
    SpecHelpers.create_markdown_table_security_scans
    SpecHelpers.create_markdown_table_cost_summary
    SpecHelpers.create_new_resource_tabular_breakdowns_with_cost
    SpecHelpers.create_managed_drift_markdown
    SpecHelpers.create_markdown_table_cloud_actor_summary.

(** A drift record whose module name is a number. *)
Definition numbered_record : pydict :=
  [("ModuleName", JInt 7); ("ResourceType", JStr "aws_subnet");
   ("ResourceName", JStr "public-1")].

Definition numbered_drift : Mappings :=
  mkMappings (Holds (JDict [])) (Holds (JDict [])) (Holds (JDict []))
    (Holds (JDict [])) (Holds [Samples.vpc_record; numbered_record]).

(** The security extract is missing and the drift extract is not JSON. *)
Definition two_failures : Mappings :=
  mkMappings (Holds (JDict [])) (Holds (JDict [])) (Holds (JDict []))
    Missing (Malformed "Expecting value: line 1 column 1 (char 0)").

(** Two different drift records whose derived paths coincide: the
    quote-space-quote separator occurs inside a field. *)
Definition quoted_type_record : pydict :=
  [("ModuleName", JStr "a");
   ("ResourceType", JStr ("b" ++ dq ++ " " ++ dq ++ "c"));
   ("ResourceName", JStr "d")].

Definition quoted_name_record : pydict :=
  [("ModuleName", JStr "a");
   ("ResourceType", JStr "b");
   ("ResourceName", JStr ("c" ++ dq ++ " " ++ dq ++ "d"))].

End MoreSamples.

(* ================================================================== *)
(** * Facts about the pandas fragment *)
(* ================================================================== *)

Section Frames.

Lemma existsb_app_one (k k' : string) (seen : list string) :
  existsb (String.eqb k) (seen ++ [k'])
  = existsb (String.eqb k) seen || String.eqb k k'.
Proof.
  rewrite existsb_app. simpl. now rewrite orb_false_r.
Qed.

Lemma dict_has_cons {V : Type} (k k' : string) (v : V) d :
  dict_has k ((k', v) :: d) = String.eqb k k' || dict_has k d.
Proof.
  unfold dict_has. simpl. now destruct (String.eqb k k').
Qed.

Lemma existsb_add_keys (k : string) (r : pydict) :
  forall seen,
    existsb (String.eqb k) (add_keys seen r)
    = existsb (String.eqb k) seen || dict_has k r.
Proof.
  induction r as [|[k' v] r IH]; intros seen; simpl.
  - unfold dict_has. simpl. now rewrite orb_false_r.
  - rewrite dict_has_cons.
    destruct (existsb (String.eqb k') seen) eqn:Hin.
    + rewrite IH.
      destruct (String.eqb_spec k k') as [->|_]; simpl; [|reflexivity].
      now rewrite Hin.
    + rewrite IH, existsb_app_one. now rewrite orb_assoc.
Qed.

Lemma existsb_fold_add_keys (k : string) (records : list pydict) :
  forall seen,
    existsb (String.eqb k) (fold_left add_keys records seen)
    = existsb (String.eqb k) seen || existsb (dict_has k) records.
Proof.
  induction records as [|r records IH]; intros seen; simpl.
  - now rewrite orb_false_r.
  - rewrite IH, existsb_add_keys. now rewrite orb_assoc.
Qed.

(** A label is a column exactly when some record has it as a key. *)
Lemma existsb_record_keys (k : string) (records : list pydict) :
  existsb (String.eqb k) (record_keys records)
  = existsb (dict_has k) records.
Proof.
  unfold record_keys. now rewrite existsb_fold_add_keys.
Qed.

Lemma dict_get_tabulate {V : Type} (f : string -> V) (k : string) keys :
  dict_get k (map (fun l => (l, f l)) keys)
  = if existsb (String.eqb k) keys then Some (f k) else None.
Proof.
  induction keys as [|l keys IH]; simpl; [reflexivity|].
  destruct (String.eqb_spec k l) as [->|_]; simpl; [reflexivity|exact IH].
Qed.

(** [pd.DataFrame(records)[k]]: the column when some record has the
    key, [KeyError] when none has. *)
Lemma df_getitem_records (k : string) (records : list pydict) :
  df_getitem (DataFrame_of_records records) k
  = if existsb (dict_has k) records
    then Ok (map (cell_of k) records)
    else Raise (KeyError k).
Proof.
  unfold df_getitem, dict_getitem, DataFrame_of_records. simpl.
  rewrite (dict_get_tabulate (fun l => map (cell_of l) records)).
  rewrite existsb_record_keys.
  now destruct (existsb (dict_has k) records).
Qed.

Lemma dict_get_set_column (label : string) (s : list cell) cols :
  dict_get label (set_column label s cols) = Some s.
Proof.
  induction cols as [|[l c] cols IH]; simpl.
  - now rewrite String.eqb_refl.
  - destruct (String.eqb_spec l label) as [->|Hne]; simpl.
    + now rewrite String.eqb_refl.
    + destruct (String.eqb_spec label l) as [->|_]; [congruence|exact IH].
Qed.

Lemma df_getitem_setitem (df : DataFrame) (label : string) s :
  df_getitem (df_setitem df label s) label = Ok s.
Proof.
  unfold df_getitem, dict_getitem, df_setitem. simpl.
  now rewrite dict_get_set_column.
Qed.

Lemma combine_map_same {A B C : Type} (f : A -> B) (g : A -> C) l :
  combine (map f l) (map g l) = map (fun x => (f x, g x)) l.
Proof.
  induction l as [|x l IH]; simpl; [reflexivity|now rewrite IH].
Qed.

(** Adding a literal to a column of strings. *)
Lemma series_add_str_strings {A : Type} (f : A -> string) lit (l : list A) :
  series_add_str (map (fun x => Val (JStr (f x))) l) lit
  = Ok (map (fun x => Val (JStr (f x ++ lit))) l).
Proof.
  unfold series_add_str.
  induction l as [|x l IH]; simpl; [reflexivity|].
  now rewrite IH.
Qed.

(** Adding two columns of strings. *)
Lemma series_add_strings {A : Type} (f g : A -> string) (l : list A) :
  series_add (map (fun x => Val (JStr (f x))) l)
    (map (fun x => Val (JStr (g x))) l)
  = Ok (map (fun x => Val (JStr (f x ++ g x))) l).
Proof.
  unfold series_add. rewrite combine_map_same.
  induction l as [|x l IH]; simpl; [reflexivity|].
  now rewrite IH.
Qed.

End Frames.

(* ================================================================== *)
(** * The derived resource path (lines 50-61) *)
(* ================================================================== *)

Section ResourcePath.

Lemma append_assoc_str (a b c : string) :
  ((a ++ b) ++ c = a ++ (b ++ c))%string.
Proof.
  induction a as [|x a IH]; simpl; [reflexivity|now rewrite IH].
Qed.

Lemma complete_cell_of (k : string) (r : pydict) :
  complete_record r = true ->
  In k ["ModuleName"; "ResourceType"; "ResourceName"] ->
  cell_of k r = Val (JStr (field_of k r)) /\ dict_has k r = true.
Proof.
  intros Hc Hk. unfold complete_record, drift_fields in Hc.
  destruct (dict_get "ModuleName" r) as [[]|] eqn:EM; try discriminate.
  destruct (dict_get "ResourceType" r) as [[]|] eqn:ET; try discriminate.
  destruct (dict_get "ResourceName" r) as [[]|] eqn:EN; try discriminate.
  unfold cell_of, field_of, dict_has. simpl in Hk.
  destruct Hk as [<-|[<-|[<-|[]]]]; rewrite ?EM, ?ET, ?EN; split; reflexivity.
Qed.

Lemma complete_path_cell (r : pydict) :
  complete_record r = true ->
  path_cell r
  = Val (JStr (resource_path (field_of "ModuleName" r)
                 (field_of "ResourceType" r) (field_of "ResourceName" r))).
Proof.
  unfold complete_record, path_cell, drift_fields, field_of.
  destruct (dict_get "ModuleName" r) as [[]|]; try discriminate.
  destruct (dict_get "ResourceType" r) as [[]|]; try discriminate.
  destruct (dict_get "ResourceName" r) as [[]|]; try discriminate.
  reflexivity.
Qed.

Lemma complete_column (k : string) (records : list pydict) :
  forallb complete_record records = true ->
  In k ["ModuleName"; "ResourceType"; "ResourceName"] ->
  map (cell_of k) records = map (fun r => Val (JStr (field_of k r))) records.
Proof.
  intros Hall Hk. apply map_ext_in. intros r Hr.
  rewrite forallb_forall in Hall.
  now destruct (complete_cell_of r (Hall r Hr) Hk).
Qed.

Lemma complete_has_column (k : string) (records : list pydict) :
  records <> [] ->
  forallb complete_record records = true ->
  In k ["ModuleName"; "ResourceType"; "ResourceName"] ->
  existsb (dict_has k) records = true.
Proof.
  intros Hne Hall Hk. destruct records as [|r records]; [congruence|].
  simpl in *. apply andb_prop in Hall. destruct Hall as [Hr _].
  destruct (complete_cell_of r Hr Hk) as [_ ->]. reflexivity.
Qed.

(** The frame computed for a non-empty list of complete records. *)
Lemma managed_drift_frame_complete (records : list pydict) :
  records <> [] ->
  forallb complete_record records = true ->
  managed_drift_frame records
  = Ok (df_setitem (DataFrame_of_records records) "ResourcePath"
          (map path_cell records)).
Proof.
  intros Hne Hall. unfold managed_drift_frame.
  assert (Hn : nonempty records = true) by (destruct records; [now elim Hne|reflexivity]).
  rewrite Hn.
  assert (Hin : forall k, In k ["ModuleName"; "ResourceType"; "ResourceName"] ->
                     df_getitem (DataFrame_of_records records) k
                     = Ok (map (fun r => Val (JStr (field_of k r))) records)).
  { intros k Hk. rewrite df_getitem_records.
    rewrite (complete_has_column Hne Hall Hk).
    now rewrite (complete_column records Hall Hk). }
  rewrite (Hin "ModuleName") by (simpl; tauto). simpl ResultMonad.bind.
  rewrite series_add_str_strings. simpl ResultMonad.bind.
  rewrite (Hin "ResourceType") by (simpl; tauto). simpl ResultMonad.bind.
  rewrite series_add_strings. simpl ResultMonad.bind.
  rewrite series_add_str_strings. simpl ResultMonad.bind.
  rewrite (Hin "ResourceName") by (simpl; tauto). simpl ResultMonad.bind.
  rewrite series_add_strings. simpl ResultMonad.bind.
  rewrite series_add_str_strings. simpl ResultMonad.bind.
  do 2 f_equal. apply map_ext_in. intros r Hr.
  rewrite forallb_forall in Hall.
  rewrite (complete_path_cell r (Hall r Hr)). unfold resource_path.
  now rewrite !append_assoc_str.
Qed.

End ResourcePath.

(** C4.  For a non-empty drift extract whose records all carry the three
    fields as strings, the frame is built without error and its
    [ResourcePath] column holds, record by record, the concatenation
    [<ModuleName> (module) "<ResourceType>" "<ResourceName>"]; for
    ModuleName [vpc], ResourceType [aws_subnet] and ResourceName
    [public-1] that is exactly [vpc (module) "aws_subnet" "public-1"]. *)
Theorem resource_path_format (records : list pydict) :
  records <> [] ->
  forallb complete_record records = true ->
  (exists df,
      managed_drift_frame records = Ok df
      /\ df_getitem df "ResourcePath" = Ok (map path_cell records)
      /\ forall i r m t n,
           nth_error records i = Some r ->
           drift_fields r = Some (m, t, n) ->
           nth_error (map path_cell records) i
           = Some (Val (JStr (m ++ " (module) " ++ dq ++ t ++ dq ++ " " ++ dq
                              ++ n ++ dq))))
  /\ path_cell [("ModuleName", JStr "vpc"); ("ResourceType", JStr "aws_subnet");
                ("ResourceName", JStr "public-1")]
     = Val (JStr ("vpc (module) " ++ dq ++ "aws_subnet" ++ dq ++ " " ++ dq
                  ++ "public-1" ++ dq)).
Proof.
  intros Hne Hall. split; [|reflexivity].
  exists (df_setitem (DataFrame_of_records records) "ResourcePath"
            (map path_cell records)).
  split; [now apply managed_drift_frame_complete|].
  split; [apply df_getitem_setitem|].
  intros i r m t n Hi Hf.
  rewrite nth_error_map, Hi. simpl. unfold path_cell. now rewrite Hf.
Qed.

Lemma resource_path_format_witness :
  exists df,
    managed_drift_frame [Samples.vpc_record] = Ok df
    /\ df_getitem df "ResourcePath"
       = Ok [Val (JStr ("vpc (module) " ++ dq ++ "aws_subnet" ++ dq ++ " "
                        ++ dq ++ "public-1" ++ dq))].
Proof.
  destruct (@resource_path_format [Samples.vpc_record])
    as [[df [Hdf [Hcol _]]] _]; [discriminate|reflexivity|].
  exists df. split; [exact Hdf|exact Hcol].
Defined.


(* ================================================================== *)
(** * Stepping through the script *)
(* ================================================================== *)

Section Stepping.

Import WorldMonad.

Lemma bind_json_load {A B : Type} (path : string)
  (file : Mappings -> FileState A) (k : A -> M B) (w : World) :
  bind (json_load path file) k w
  = match file (mappings w) with
    | Missing => (Raise (FileNotFoundError path), w)
    | Malformed msg => (Raise (JSONDecodeError msg), w)
    | Holds a => k a w
    end.
Proof.
  unfold bind, json_load. now destruct (file (mappings w)).
Qed.

Lemma bind_lift {A B : Type} (r : Result A) (k : A -> M B) (w : World) :
  bind (lift r) k w
  = match r with
    | Ok a => k a w
    | Raise e => (Raise e, w)
    end.
Proof.
  unfold bind, lift. now destruct r.
Qed.

Lemma bind_datetime_now {B : Type} (k : datetime -> M B) (w : World) :
  bind datetime_now k w = k (clock w) w.
Proof. reflexivity. Qed.

End Stepping.

Lemma closing_items_appended (m : MdUtils) (now : datetime) :
  new_line
    (new_line
       (new_line
          (new_line
             (new_line (new_header m 4 "Disclaimer" "atx" false)
                disclaimer_usage) "") disclaimer_scope) "")
    ("Created by Cloud Concierge at " ++ strftime_report now)
  = append_items m (closing_items now).
Proof.
  unfold new_line, new_header, append_item, append_items, closing_items.
  cbn [body file_name title table_of_contents].
  repeat rewrite <- app_assoc. reflexivity.
Qed.

Lemma last_last_closing (items : list MdItem) (now : datetime) :
  last (items ++ closing_items now) (Line "")
  = Line ("Created by Cloud Concierge at " ++ strftime_report now).
Proof.
  unfold closing_items.
  change [Header 4 "Disclaimer" "atx" false; Line disclaimer_usage; Line "";
          Line disclaimer_scope; Line "";
          Line ("Created by Cloud Concierge at " ++ strftime_report now)]
    with ([Header 4 "Disclaimer" "atx" false; Line disclaimer_usage; Line "";
           Line disclaimer_scope; Line ""]
          ++ [Line ("Created by Cloud Concierge at " ++ strftime_report now)]).
  rewrite app_assoc. apply last_last.
Qed.

(** The stepping lemmas applied at the head of the goal. *)
Ltac step_load :=
  rewrite bind_json_load; cbv beta;
  match goal with
  | |- context [match ?f (mappings ?w) with _ => _ end] =>
      destruct (f (mappings w)) eqn:?
  end.

Ltac step_lift :=
  rewrite bind_lift; cbv beta zeta;
  match goal with
  | |- context [match ?r with Ok _ => _ | Raise _ => _ end] =>
      destruct r eqn:?
  end.

Section Outcome.

Variable H : Helpers.

(** Every run either raises and leaves the world as it found it, or
    ends with one sink call on a document closed by the disclaimer, the
    timestamp and the table of contents. *)
Lemma create_markdown_file_outcome (job path : string) (w : World) :
  (exists e, create_markdown_file H job path w = (Raise e, w)
             /\ (loadable (mappings w) = false -> is_load_error e = true))
  \/ (exists m,
         loadable (mappings w) = true
         /\ create_markdown_file H job path w
            = (Ok tt,
               after_report w
                 (new_table_of_contents
                    (append_items m (closing_items (clock w)))
                    "Contents" 1))).
Proof.
  unfold create_markdown_file, loadable.
  step_load; [left; eexists; split; [reflexivity|reflexivity]
             |left; eexists; split; [reflexivity|reflexivity]|].
  step_load; [left; eexists; split; [reflexivity|reflexivity]
             |left; eexists; split; [reflexivity|reflexivity]|].
  step_load; [left; eexists; split; [reflexivity|reflexivity]
             |left; eexists; split; [reflexivity|reflexivity]|].
  step_load; [left; eexists; split; [reflexivity|reflexivity]
             |left; eexists; split; [reflexivity|reflexivity]|].
  step_load; [left; eexists; split; [reflexivity|reflexivity]
             |left; eexists; split; [reflexivity|reflexivity]|].
  do 9 (step_lift; [|left; eexists; split; [reflexivity|discriminate]]).
  right.
  match goal with
  | |- context [new_header ?m 4 "Disclaimer" "atx" false] => exists m
  end.
  split; [reflexivity|].
  rewrite bind_datetime_now. cbv beta zeta.
  rewrite closing_items_appended. reflexivity.
Qed.

End Outcome.

(* ================================================================== *)
(** * The shape of a report *)
(* ================================================================== *)

Lemma new_line_appends (md : MdUtils) (p : string) :
  new_line md p = append_items md [Line p].
Proof. reflexivity. Qed.

Lemma new_header_appends (md : MdUtils) (level : nat) (ttl style : string)
  (in_toc : bool) :
  new_header md level ttl style in_toc
  = append_items md [Header level ttl style in_toc].
Proof. reflexivity. Qed.

Lemma append_items_app (md : MdUtils) (xs ys : list MdItem) :
  append_items (append_items md xs) ys = append_items md (xs ++ ys).
Proof.
  unfold append_items. simpl. now rewrite app_assoc.
Qed.

Lemma section_step (c : bool) (r : Result MdUtils) (md m' : MdUtils)
  (p : string) :
  (if c then r else Ok (new_line md p)) = Ok m' ->
  (c = true -> r = Ok m' -> appends md m') ->
  exists s, m' = append_items md s /\ (c = false -> s = [Line p]).
Proof.
  destruct c; intros E Happ.
  - destruct (Happ eq_refl E) as [s ->]. exists s. split; [reflexivity|].
    discriminate.
  - injection E as <-. exists [Line p]. split; [reflexivity|reflexivity].
Qed.

Ltac split_binds E :=
  repeat match type of E with
    | ResultMonad.bind ?x _ = _ =>
        let E' := fresh "E" in
        destruct x eqn:E'; cbn [ResultMonad.bind] in E; [|discriminate E]
    end.

Ltac take_load Hrun :=
  rewrite bind_json_load in Hrun; cbv beta in Hrun;
  match type of Hrun with
  | context [match ?f (mappings ?w) with _ => _ end] =>
      destruct (f (mappings w)) eqn:?; [discriminate Hrun|discriminate Hrun|]
  end.

Ltac take_lift Hrun :=
  rewrite bind_lift in Hrun; cbv beta zeta in Hrun;
  match type of Hrun with
  | context [match ?r with Ok _ => _ | Raise _ => _ end] =>
      destruct r eqn:?; [|discriminate Hrun]
  end.

Ltac take_section Hrun s Hs :=
  take_lift Hrun;
  match goal with
  | E : (if _ then _ else Ok (new_line _ _)) = Ok _ |- _ =>
      apply section_step in E as [s [-> Hs]];
      [|intros _ E'; split_binds E'; try (injection E' as <-);
        eauto using cost_appends, resources_appends, drift_appends,
          actors_appends]
  end.

Section Shape.

Variable H : Helpers.
Hypothesis H_appends : append_only H.

Lemma report_shape (job path : string) (w w' : World) :
  create_markdown_file H job path w = (Ok tt, w') ->
  exists nr act cost sec drift s1 s2 s3 s4 s5,
    new_resources_to_documents (mappings w) = Holds nr
    /\ resources_to_cloud_actions (mappings w) = Holds act
    /\ division_to_cost_estimates (mappings w) = Holds cost
    /\ division_to_security_scan (mappings w) = Holds sec
    /\ drift_resources_differences (mappings w) = Holds drift
    /\ w' = after_report w
              (report_document job path (clock w) s1 s2 s3 s4 s5)
    /\ security_section H sec s1
    /\ (truthy cost = false -> s2 = [Line "Cost estimation not run."])
    /\ (py_len nr = Ok 0 -> s3 = [Line "No new resources found!"])
    /\ (drift = [] -> s4 = [Line "No controlled resources have drifted!"])
    /\ (truthy act = false -> s5 = [Line "No identified Cloud Actor actions."]).
Proof.
  intros Hrun. unfold create_markdown_file in Hrun.
  do 5 take_load Hrun.
  do 4 take_lift Hrun.
  take_lift Hrun.
  match goal with
  | E : (if truthy _ then _ else Ok (new_line _ _)) = Ok _ |- _ =>
      pose proof E as Esec;
      apply section_step in E as [s1 [-> Hs1]];
      [|intros _ E'; split_binds E'; eauto using security_appends]
  end.
  match type of Esec with
  | (if truthy ?sec then _ else _) = _ =>
      assert (Hsec : security_section H sec s1)
        by (unfold security_section; destruct (truthy sec);
            [split_binds Esec; eauto|now apply Hs1])
  end.
  clear Esec Hs1.
  take_section Hrun s2 Hs2.
  take_section Hrun s3 Hs3.
  take_section Hrun s4 Hs4.
  take_section Hrun s5 Hs5.
  rewrite bind_datetime_now in Hrun. cbv beta zeta in Hrun.
  rewrite closing_items_appended in Hrun.
  unfold WorldMonad.bind, create_md_file, print in Hrun.
  cbn [mappings clock written stdout directories] in Hrun.
  injection Hrun as <-.
  do 5 eexists. exists s1, s2, s3, s4, s5.
  do 5 (split; [reflexivity|]).
  split.
  { rewrite !new_header_appends, !new_line_appends, !append_items_app.
    reflexivity. }
  split; [exact Hsec|].
  split; [exact Hs2|].
  split.
  { intros Hlen. apply Hs3.
    match goal with
    | E : ResultMonad.bind (py_len _) _ = Ok _ |- _ =>
        rewrite Hlen in E; cbn in E; injection E as <-
    end.
    reflexivity. }
  split; [|exact Hs5].
  intros ->. apply Hs4.
  match goal with
  | E : managed_drift_frame [] = Ok _ |- _ => cbn in E; injection E as <-
  end.
  reflexivity.
Qed.

End Shape.

(* ================================================================== *)
(** * The timestamp format *)
(* ================================================================== *)

Section Timestamp.

Local Open Scope N_scope.

Ltac div_lia := zify; Z.to_euclidean_division_equations; lia.

Lemma is_digit_digit_char (d : N) : d < 10 -> is_digit (digit_char d) = true.
Proof.
  intros Hd.
  assert (Hcases : d = 0 \/ d = 1 \/ d = 2 \/ d = 3 \/ d = 4 \/ d = 5
                   \/ d = 6 \/ d = 7 \/ d = 8 \/ d = 9) by lia.
  repeat (destruct Hcases as [->|Hcases]; [reflexivity|]).
  subst d. reflexivity.
Qed.

Lemma decimal_aux_last (fuel : nat) (n : N) (acc : string) :
  n / 10 = 0 ->
  decimal_aux (S fuel) n acc = String (digit_char (n mod 10)) acc.
Proof.
  intros Hq. cbn [decimal_aux]. rewrite Hq. reflexivity.
Qed.

Lemma decimal_aux_more (fuel : nat) (n : N) (acc : string) :
  n / 10 <> 0 ->
  decimal_aux (S fuel) n acc
  = decimal_aux fuel (n / 10) (String (digit_char (n mod 10)) acc).
Proof.
  intros Hq. cbn [decimal_aux].
  destruct (N.eqb_spec (n / 10) 0); [contradiction|reflexivity].
Qed.

Lemma pad2_two_digits (n : N) : n < 100 -> two_digits (pad2 n).
Proof.
  intros Hn. unfold pad2, decimal.
  destruct (N.ltb_spec n 10) as [Hlt|Hge].
  - exists 0, (n mod 10). rewrite decimal_aux_last by div_lia.
    split; [reflexivity|]. split; [lia|div_lia].
  - destruct (N.to_nat n) as [|[|k]] eqn:Hk; [lia|lia|].
    rewrite decimal_aux_more by div_lia.
    rewrite decimal_aux_last by div_lia.
    exists ((n / 10) mod 10), (n mod 10).
    split; [reflexivity|]. split; div_lia.
Qed.

Lemma decimal_four_digits (n : N) :
  1000 <= n <= 9999 -> four_digits (decimal n).
Proof.
  intros Hn. unfold decimal.
  destruct (N.to_nat n) as [|[|[|[|k]]]] eqn:Hk; [lia|lia|lia|lia|].
  do 3 (rewrite decimal_aux_more by div_lia).
  rewrite decimal_aux_last by div_lia.
  exists ((n / 10 / 10 / 10) mod 10), ((n / 10 / 10) mod 10),
    ((n / 10) mod 10), (n mod 10).
  split; [reflexivity|]. repeat split; div_lia.
Qed.

(** The two-digit directives print the tens and the units of the
    field; [%Y] prints the four digits of the year. *)
Lemma pad2_digits (n : N) :
  n < 100 -> pad2 n = digit_text [n / 10; n mod 10].
Proof.
  intros Hn. unfold pad2, decimal, digit_text. cbn [fold_right].
  destruct (N.ltb_spec n 10) as [Hlt|Hge].
  - rewrite decimal_aux_last by div_lia.
    replace (n / 10) with 0 by div_lia. reflexivity.
  - destruct (N.to_nat n) as [|[|k]] eqn:Hk; [lia|lia|].
    rewrite decimal_aux_more by div_lia.
    rewrite decimal_aux_last by div_lia.
    replace ((n / 10) mod 10) with (n / 10) by div_lia. reflexivity.
Qed.

Lemma decimal_digits4 (n : N) :
  1000 <= n <= 9999 ->
  decimal n
  = digit_text [n / 1000; (n / 100) mod 10; (n / 10) mod 10; n mod 10].
Proof.
  intros Hn. unfold decimal, digit_text. cbn [fold_right].
  destruct (N.to_nat n) as [|[|[|[|k]]]] eqn:Hk; [lia|lia|lia|lia|].
  do 3 (rewrite decimal_aux_more by div_lia).
  rewrite decimal_aux_last by div_lia.
  replace ((n / 10 / 10 / 10) mod 10) with (n / 1000) by div_lia.
  replace ((n / 10 / 10) mod 10) with ((n / 100) mod 10) by div_lia.
  reflexivity.
Qed.

(** The clock reading is printed field by field: hour and minute, then
    year, month and day, each as the digits of its value. *)
Lemma strftime_report_fields (t : datetime) :
  valid_datetime t ->
  strftime_report t
  = (digit_text [hour t / 10; hour t mod 10] ++ ":"
     ++ digit_text [minute t / 10; minute t mod 10] ++ " UTC on "
     ++ digit_text [year t / 1000; (year t / 100) mod 10;
                    (year t / 10) mod 10; year t mod 10] ++ "-"
     ++ digit_text [month t / 10; month t mod 10] ++ "-"
     ++ digit_text [day t / 10; day t mod 10])%string.
Proof.
  intros (Hy & Hmo & Hd & Hh & Hmi). unfold strftime_report.
  rewrite (@pad2_digits (hour t)) by lia.
  rewrite (@pad2_digits (minute t)) by lia.
  rewrite (@pad2_digits (month t)) by lia.
  rewrite (@pad2_digits (day t)) by lia.
  rewrite (@decimal_digits4 (year t)) by lia.
  reflexivity.
Qed.

(** The clock reading is always printed in the shape
    [HH:MM UTC on YYYY-MM-DD]. *)
Lemma strftime_report_shape (t : datetime) :
  valid_datetime t -> is_timestamp (strftime_report t) = true.
Proof.
  intros (Hy & Hmo & Hd & Hh & Hmi). unfold strftime_report.
  destruct (@pad2_two_digits (hour t)) as (h1 & h2 & -> & ? & ?); [lia|].
  destruct (@pad2_two_digits (minute t)) as (m1 & m2 & -> & ? & ?); [lia|].
  destruct (@pad2_two_digits (month t)) as (o1 & o2 & -> & ? & ?); [lia|].
  destruct (@pad2_two_digits (day t)) as (d1 & d2 & -> & ? & ?); [lia|].
  destruct (@decimal_four_digits (year t)) as
    (y1 & y2 & y3 & y4 & -> & ? & ? & ? & ?); [lia|].
  unfold is_timestamp, timestamp_pattern.
  cbn [digits repeat literal list_ascii_of_string map app matches_pattern
       append Ascii.eqb Bool.eqb andb].
  rewrite !is_digit_digit_char by assumption. reflexivity.
Qed.

End Timestamp.

(* ================================================================== *)
(** * Runs on empty extracts *)
(* ================================================================== *)

Section EmptyRun.

Variable H : Helpers.

Lemma all_empty_report (job path : string) (w : World) :
  all_empty (mappings w) = true ->
  create_markdown_file H job path w
  = (Ok tt, after_report w (empty_report job path (clock w))).
Proof.
  unfold all_empty. intros He.
  destruct (new_resources_to_documents (mappings w)) as [| |nr] eqn:E1;
    try discriminate.
  destruct (resources_to_cloud_actions (mappings w)) as [| |act] eqn:E2;
    try discriminate.
  destruct (division_to_cost_estimates (mappings w)) as [| |cost] eqn:E3;
    try discriminate.
  destruct (division_to_security_scan (mappings w)) as [| |sec] eqn:E4;
    try discriminate.
  destruct (drift_resources_differences (mappings w)) as [| |[|r drift]] eqn:E5;
    try discriminate.
  destruct (py_len nr) as [[|n]|] eqn:Hlen; try discriminate.
  apply andb_prop in He. destruct He as [He Hsec].
  apply andb_prop in He. destruct He as [Hact Hcost].
  apply negb_true_iff in Hsec, Hact, Hcost.
  unfold create_markdown_file.
  rewrite bind_json_load, E1. rewrite bind_json_load, E2.
  rewrite bind_json_load, E3. rewrite bind_json_load, E4.
  rewrite bind_json_load, E5. cbv beta iota.
  rewrite Hlen, Hact, Hcost, Hsec.
  reflexivity.
Qed.

End EmptyRun.

(* ================================================================== *)
(** * The modelled helpers only append *)
(* ================================================================== *)

Section SpecHelpersAppend.

Lemma append_items_nil (md : MdUtils) : append_items md [] = md.
Proof.
  destruct md. unfold append_items. simpl. now rewrite app_nil_r.
Qed.

Lemma fold_render_division (d : list (string * DataFrame)) :
  forall md,
    fold_left SpecHelpers.render_division d md
    = append_items md (flat_map division_items d).
Proof.
  induction d as [|kv d IH]; intros md; simpl.
  - now rewrite append_items_nil.
  - rewrite IH. unfold SpecHelpers.render_division, new_table, new_header,
      append_item, append_items. simpl.
    now rewrite <- !app_assoc.
Qed.

Lemma spec_helpers_append_only : append_only SpecHelpers.helpers.
Proof.
  constructor; simpl.
  - intros md d md' E. injection E as <-.
    eexists. apply fold_render_division.
  - intros md df md' E. injection E as <-. now exists [Table df].
  - intros md counts costs md' E. injection E as <-.
    rewrite fold_render_division.
    destruct (df_empty costs).
    + now eexists.
    + exists (flat_map division_items counts ++ [Table costs]).
      unfold new_table, append_item. now rewrite <- append_items_app.
  - intros df md md' E. injection E as <-. now exists [Table df].
  - intros df md r E. injection E as <-. now exists [Table df].
Qed.

End SpecHelpersAppend.

(* ================================================================== *)
(** * The timestamp line *)
(* ================================================================== *)

(** C8.  Every report that is generated ends with the line
    [Created by Cloud Concierge at <stamp>], where [<stamp>] has the
    shape [HH:MM UTC on YYYY-MM-DD] and reads, in this order: the two
    digits of the clock's hour (0 to 23), a colon, the two digits of its
    minute, the text [ UTC on ], the four digits of its year, a dash,
    the two digits of its month, a dash and the two digits of its day.
    Five past nine on 7 March 2024 is stamped [09:05 UTC on 2024-03-07],
    a minute before midnight on 31 December 1999
    [23:59 UTC on 1999-12-31]. *)
Theorem timestamp_line_format (H : Helpers) (job path : string)
  (w w' : World) :
  valid_datetime (clock w) ->
  create_markdown_file H job path w = (Ok tt, w') ->
  (exists md stamp,
      written w' = written w ++ [(file_name md, md)]
      /\ last (body md) (Line "")
         = Line ("Created by Cloud Concierge at " ++ stamp)
      /\ stamp = strftime_report (clock w)
      /\ is_timestamp stamp = true
      /\ exists h1 h2 m1 m2 y1 y2 y3 y4 o1 o2 d1 d2,
          stamp = (digit_text [h1; h2] ++ ":" ++ digit_text [m1; m2]
                   ++ " UTC on " ++ digit_text [y1; y2; y3; y4]
                   ++ "-" ++ digit_text [o1; o2]
                   ++ "-" ++ digit_text [d1; d2])%string
          /\ Forall (fun d => (d < 10)%N)
               [h1; h2; m1; m2; y1; y2; y3; y4; o1; o2; d1; d2]
          /\ (hour (clock w) = 10 * h1 + h2
              /\ hour (clock w) <= 23
              /\ minute (clock w) = 10 * m1 + m2
              /\ year (clock w) = 1000 * y1 + 100 * y2 + 10 * y3 + y4
              /\ month (clock w) = 10 * o1 + o2
              /\ day (clock w) = 10 * d1 + d2)%N)
  /\ strftime_report (mkDatetime 2024 3 7 9 5) = "09:05 UTC on 2024-03-07"
  /\ strftime_report (mkDatetime 1999 12 31 23 59)
     = "23:59 UTC on 1999-12-31".
Proof.
  intros Hvalid Hrun. split; [|split; reflexivity].
  destruct (create_markdown_file_outcome H job path w)
    as [(e & Hrun' & _)|(m & _ & Hrun')];
    rewrite Hrun' in Hrun; [discriminate|].
  injection Hrun as <-.
  eexists. exists (strftime_report (clock w)).
  split; [reflexivity|]. split.
  { cbn [new_table_of_contents append_items body].
    rewrite last_last_closing. reflexivity. }
  split; [reflexivity|]. split; [now apply strftime_report_shape|].
  set (t := clock w) in *.
  exists (hour t / 10)%N, (hour t mod 10)%N,
    (minute t / 10)%N, (minute t mod 10)%N,
    (year t / 1000)%N, ((year t / 100) mod 10)%N,
    ((year t / 10) mod 10)%N, (year t mod 10)%N,
    (month t / 10)%N, (month t mod 10)%N,
    (day t / 10)%N, (day t mod 10)%N.
  split; [now apply strftime_report_fields|].
  destruct Hvalid as (Hy & Hmo & Hd & Hh & Hmi).
  split.
  { repeat (apply Forall_cons;
            [zify; Z.to_euclidean_division_equations; lia|]).
    apply Forall_nil. }
  repeat split; try (zify; Z.to_euclidean_division_equations; lia).
Qed.

Lemma timestamp_line_format_witness :
  (exists md stamp,
      written (after_report (Samples.world_of Samples.empty_mappings)
                 (empty_report "job" "state_of_cloud/"
                    Samples.clock_reading))
      = written (Samples.world_of Samples.empty_mappings)
        ++ [(file_name md, md)]
      /\ last (body md) (Line "")
         = Line ("Created by Cloud Concierge at " ++ stamp)
      /\ stamp = strftime_report Samples.clock_reading
      /\ is_timestamp stamp = true
      /\ exists h1 h2 m1 m2 y1 y2 y3 y4 o1 o2 d1 d2,
          stamp = (digit_text [h1; h2] ++ ":" ++ digit_text [m1; m2]
                   ++ " UTC on " ++ digit_text [y1; y2; y3; y4]
                   ++ "-" ++ digit_text [o1; o2]
                   ++ "-" ++ digit_text [d1; d2])%string
          /\ Forall (fun d => (d < 10)%N)
               [h1; h2; m1; m2; y1; y2; y3; y4; o1; o2; d1; d2]
          /\ (hour Samples.clock_reading = 10 * h1 + h2
              /\ hour Samples.clock_reading <= 23
              /\ minute Samples.clock_reading = 10 * m1 + m2
              /\ year Samples.clock_reading
                 = 1000 * y1 + 100 * y2 + 10 * y3 + y4
              /\ month Samples.clock_reading = 10 * o1 + o2
              /\ day Samples.clock_reading = 10 * d1 + d2)%N)
  /\ strftime_report (mkDatetime 2024 3 7 9 5) = "09:05 UTC on 2024-03-07"
  /\ strftime_report (mkDatetime 1999 12 31 23 59)
     = "23:59 UTC on 1999-12-31".
Proof.
  apply (@timestamp_line_format SpecHelpers.helpers "job" "state_of_cloud/"
           (Samples.world_of Samples.empty_mappings)).
  - unfold valid_datetime. simpl. lia.
  - reflexivity.
Defined.

(* ================================================================== *)
(** * The introduction *)
(* ================================================================== *)

(** C9.  Whatever the extracts hold, a generated report opens with the
    heading [How to Read this Report] followed by the introduction
    paragraph, and that paragraph states that at least one resource was
    identified to have drifted or be outside of Terraform control; this
    includes the run on five empty extracts, which completes. *)
Theorem intro_claims_drift_unconditionally (H : Helpers) (job path : string)
  (w : World) :
  append_only H ->
  (forall w',
      create_markdown_file H job path w = (Ok tt, w') ->
      exists md,
        written w' = written w ++ [((path ++ "/report.md")%string, md)]
        /\ nth_error (body md) 0
           = Some (Header 1 "How to Read this Report" "atx" true)
        /\ nth_error (body md) 1 = Some (Line (intro_text job)))
  /\ (all_empty (mappings w) = true ->
      exists w', create_markdown_file H job path w = (Ok tt, w'))
  /\ (exists before after : string,
         intro_text job = (before ++ drift_sentence ++ after)%string).
Proof.
  intros Happ. split; [|split].
  - intros w' Hrun.
    destruct (report_shape Happ _ _ _ Hrun)
      as (nr & act & cost & sec & drift & s1 & s2 & s3 & s4 & s5 & _ & _
          & _ & _ & _ & -> & _).
    eexists. split; [reflexivity|]. split; reflexivity.
  - intros He. eexists. now apply all_empty_report.
  - exists ("Your job, titled " ++ job
            ++ ", has run. Of the resources the job scans, ")%string.
    exists (". While code has been generated of the Terraform code and corresponding import statements needed to bring these "
            ++ "resources under Terraform control, below you will find a summary of the gaps identified in your "
            ++ "current IaC posture.")%string.
    unfold intro_text, drift_sentence.
    rewrite !append_assoc_str. reflexivity.
Qed.

Lemma intro_claims_drift_unconditionally_witness :
  exists w',
    create_markdown_file SpecHelpers.helpers "job" "state_of_cloud/"
      (Samples.world_of Samples.empty_mappings) = (Ok tt, w').
Proof.
  destruct (@intro_claims_drift_unconditionally SpecHelpers.helpers "job"
              "state_of_cloud/" (Samples.world_of Samples.empty_mappings)
              spec_helpers_append_only) as (_ & Hempty & _).
  apply Hempty. reflexivity.
Defined.

(* ================================================================== *)
(** * New resources without cost estimates *)
(* ================================================================== *)

Ltac raised := eexists; reflexivity.

(** C1.  When the cost extract is empty and the new-resources helper
    returns a non-empty mapping of count tables, [create_markdown_file]
    never completes: it raises and writes nothing.  When the other
    extracts are empty too, the exception is the [UnboundLocalError] of
    [cost_summary_dict_of_dfs], read on line 127 although it is only
    assigned on line 73 under [if divisions_to_cost_estimates]. *)
Theorem unbound_cost_summary (H : Helpers) (job path : string) (w : World)
  (nr cost : json) (n : nat) (counts : list (string * DataFrame)) :
  new_resources_to_documents (mappings w) = Holds nr ->
  division_to_cost_estimates (mappings w) = Holds cost ->
  truthy cost = false ->
  py_len nr = Ok (S n) ->
  process_new_resources H nr = Ok counts ->
  counts <> [] ->
  (exists e, create_markdown_file H job path w = (Raise e, w))
  /\ (forall act sec,
        resources_to_cloud_actions (mappings w) = Holds act ->
        division_to_security_scan (mappings w) = Holds sec ->
        drift_resources_differences (mappings w) = Holds [] ->
        truthy act = false ->
        truthy sec = false ->
        create_markdown_file H job path w
        = (Raise (UnboundLocalError "cost_summary_dict_of_dfs"), w)).
Proof.
  intros Hnr Hcost Hfalsy Hlen Hcounts Hne.
  assert (Hpos : (0 <? List.length counts) = true)
    by (destruct counts; [now elim Hne|reflexivity]).
  split.
  - unfold create_markdown_file.
    rewrite bind_json_load, Hnr.
    step_load; [raised|raised|].
    rewrite bind_json_load, Hcost.
    step_load; [raised|raised|].
    step_load; [raised|raised|].
    step_lift; [|raised].
    rewrite bind_lift, Hlen.
    cbn [ResultMonad.bind]. change (0 <? S n) with true.
    rewrite Hcounts. cbv beta iota zeta.
    step_lift; [|raised].
    rewrite Hfalsy.
    rewrite bind_lift. cbv beta iota zeta.
    step_lift; [|raised].
    rewrite bind_lift. cbv beta iota zeta.
    rewrite bind_lift, Hpos. cbn [read_local ResultMonad.bind].
    raised.
  - intros act sec Hact Hsec Hdrift Hact_falsy Hsec_falsy.
    unfold create_markdown_file.
    rewrite bind_json_load, Hnr. rewrite bind_json_load, Hact.
    rewrite bind_json_load, Hcost. rewrite bind_json_load, Hsec.
    rewrite bind_json_load, Hdrift. cbv beta iota.
    rewrite !bind_lift, Hlen.
    cbn [managed_drift_frame nonempty ResultMonad.bind].
    change (0 <? S n) with true.
    rewrite Hcounts, Hact_falsy, Hfalsy, Hsec_falsy. cbv beta iota zeta.
    rewrite !bind_lift. rewrite Hpos. reflexivity.
Qed.

Lemma unbound_cost_summary_witness :
  create_markdown_file SpecHelpers.helpers "job" "state_of_cloud/"
    (Samples.world_of Samples.bucket_without_costs)
  = (Raise (UnboundLocalError "cost_summary_dict_of_dfs"),
     Samples.world_of Samples.bucket_without_costs).
Proof.
  refine (proj2 (@unbound_cost_summary SpecHelpers.helpers "job"
                   "state_of_cloud/"
                   (Samples.world_of Samples.bucket_without_costs)
                   Samples.one_bucket (JDict []) 0 _
                   eq_refl eq_refl eq_refl eq_refl eq_refl _)
            (JDict []) (JDict []) eq_refl eq_refl eq_refl eq_refl eq_refl).
  discriminate.
Defined.

(** C2.  With new resources, drift, actor actions and scan findings
    present but no cost estimate, the run stops on the same unassigned
    variable: no document reaches the sink, so none of the section
    headings is emitted. *)
Theorem headings_lost_without_costs :
  create_markdown_file SpecHelpers.helpers "job" "state_of_cloud/"
    (Samples.world_of Samples.all_but_costs)
  = (Raise (UnboundLocalError "cost_summary_dict_of_dfs"),
     Samples.world_of Samples.all_but_costs)
  /\ written (Samples.world_of Samples.all_but_costs) = [].
Proof.
  split; reflexivity.
Qed.

(** X2.  Every run that completes emits the section headings in their
    fixed order, whatever the helpers add in between. *)
Lemma completed_run_headings (H : Helpers) (job path : string)
  (w w' : World) :
  append_only H ->
  create_markdown_file H job path w = (Ok tt, w') ->
  exists md h1 h2 h3 h4 h5,
    written w' = written w ++ [((path ++ "/report.md")%string, md)]
    /\ headings (body md)
       = ["How to Read this Report"; "Identified Security Risks"] ++ h1
         ++ ["Calculable Cloud Costs (Monthly)"] ++ h2
         ++ ["Resources Outside of Terraform Control"] ++ h3
         ++ ["Drifted Resources Managed By Terraform"] ++ h4
         ++ ["Root Causes of Drift"; "Cloud Actors Causing Changes"] ++ h5
         ++ ["Disclaimer"].
Proof.
  intros Happ Hrun.
  destruct (report_shape Happ _ _ _ Hrun)
    as (nr & act & cost & sec & drift & s1 & s2 & s3 & s4 & s5 & _ & _
        & _ & _ & _ & -> & _).
  eexists. exists (headings s1), (headings s2), (headings s3),
    (headings s4), (headings s5).
  split; [reflexivity|].
  unfold report_document, report_body, headings. cbn [body].
  repeat (rewrite flat_map_app; cbn [flat_map app]).
  reflexivity.
Qed.

(* ================================================================== *)
(** * The security section *)
(* ================================================================== *)

Section SecuritySection.

Import ResultMonad.

Lemma mapM_ok_inv {A B : Type} (f : A -> Result B) (l : list A) :
  forall l', mapM f l = Ok l' -> Forall2 (fun x y => f x = Ok y) l l'.
Proof.
  induction l as [|x l IH]; intros l' E; simpl in E.
  - injection E as <-. constructor.
  - destruct (f x) as [y|] eqn:Ex; simpl in E; [|discriminate].
    destruct (mapM f l) as [ys|] eqn:El; simpl in E; [|discriminate].
    injection E as <-. constructor; [exact Ex|now apply IH].
Qed.

Lemma as_records_inv (j : json) (records : list pydict) :
  SpecHelpers.as_records j = Ok records -> j = JList (map JDict records).
Proof.
  destruct j; try discriminate. simpl. intros E. f_equal.
  apply mapM_ok_inv in E.
  induction E as [|x r l rs Hx _ IH]; [reflexivity|].
  simpl. rewrite <- IH. f_equal.
  destruct x; try discriminate. now injection Hx as ->.
Qed.

Lemma security_frames_inv (sec : json) (d : list (string * DataFrame)) :
  SpecHelpers.division_to_security_scan_to_df_dict sec = Ok d ->
  exists divisions,
    sec = scan_of divisions
    /\ d = map (fun dv => (fst dv, DataFrame_of_records (snd dv))) divisions.
Proof.
  destruct sec as [| | | | | |ds]; try discriminate. simpl. intros E.
  apply mapM_ok_inv in E. unfold scan_of.
  induction E as [|[k v] [k' df] ds d Hx _ IH].
  - now exists [].
  - destruct IH as (divisions & Hds & Hd). simpl in Hx.
    destruct (SpecHelpers.as_records v) as [records|] eqn:Ev;
      simpl in Hx; [|discriminate].
    injection Hx as <- <-. apply as_records_inv in Ev.
    exists ((k, records) :: divisions). simpl.
    injection Hds as ->. subst v d. split; reflexivity.
Qed.

Lemma flat_map_division_items (divisions : list (string * list pydict)) :
  flat_map division_items
    (map (fun dv => (fst dv, DataFrame_of_records (snd dv))) divisions)
  = flat_map division_section divisions.
Proof.
  induction divisions as [|d divisions IH]; simpl; [reflexivity|].
  now rewrite IH.
Qed.

Lemma headings_division_sections (divisions : list (string * list pydict)) :
  headings (flat_map division_section divisions) = map fst divisions.
Proof.
  induction divisions as [|d divisions IH]; simpl; [reflexivity|].
  now rewrite IH.
Qed.

Lemma append_items_inj (m : MdUtils) (xs ys : list MdItem) :
  append_items m xs = append_items m ys -> xs = ys.
Proof.
  unfold append_items. intros E. injection E as E.
  now apply app_inv_head in E.
Qed.

End SecuritySection.

(** C5.  With the security helpers as the specification describes them,
    the section under [Identified Security Risks] of a generated report
    is the single sentence [Security scan not run.] when the mapping is
    empty or otherwise falsy; when the mapping is non-empty the section
    is, division by division in the order of the mapping, a heading and
    the table of the division's findings: a division with an empty
    finding list gives its heading followed by an empty table, and a
    division that is not in the mapping has no heading in the section. *)
Theorem security_section_rendering (job path : string) (w w' : World)
  (sec : json) :
  division_to_security_scan (mappings w) = Holds sec ->
  create_markdown_file SpecHelpers.helpers job path w = (Ok tt, w') ->
  exists s1 s2 s3 s4 s5,
    w' = after_report w (report_document job path (clock w) s1 s2 s3 s4 s5)
    /\ (truthy sec = false -> s1 = [Line "Security scan not run."])
    /\ (truthy sec = true ->
        exists divisions,
          sec = scan_of divisions
          /\ s1 = flat_map division_section divisions
          /\ (forall division,
                In (division, []) divisions ->
                exists before after,
                  s1 = before
                       ++ [Header 2 division "atx" false;
                           Table DataFrame_empty] ++ after)
          /\ (forall division,
                ~ In division (map fst divisions) ->
                ~ In division (headings s1))).
Proof.
  intros Hfile Hrun.
  destruct (report_shape spec_helpers_append_only _ _ _ Hrun)
    as (nr & act & cost & sec' & drift & s1 & s2 & s3 & s4 & s5 & _ & _
        & _ & Hfile' & _ & Hw & Hsec & _).
  rewrite Hfile in Hfile'. injection Hfile' as <-.
  exists s1, s2, s3, s4, s5. split; [exact Hw|].
  unfold security_section in Hsec.
  split; intros Ht; rewrite Ht in Hsec; [exact Hsec|].
  destruct Hsec as (d & m & Hd & Hrender).
  destruct (security_frames_inv _ Hd) as (divisions & Hscan & ->).
  simpl in Hrender. injection Hrender as Hrender.
  rewrite fold_render_division in Hrender.
  apply append_items_inj in Hrender.
  rewrite flat_map_division_items in Hrender. subst s1.
  exists divisions. split; [exact Hscan|]. split; [reflexivity|].
  split.
  - intros division Hin. apply in_split in Hin.
    destruct Hin as (l1 & l2 & ->).
    exists (flat_map division_section l1), (flat_map division_section l2).
    rewrite flat_map_app. reflexivity.
  - intros division Hnot. now rewrite headings_division_sections.
Qed.

Lemma security_section_rendering_witness :
  exists s1 s2 s3 s4 s5,
    snd (create_markdown_file SpecHelpers.helpers "job" "state_of_cloud/"
           (Samples.world_of Samples.full_mappings))
    = after_report (Samples.world_of Samples.full_mappings)
        (report_document "job" "state_of_cloud/" Samples.clock_reading
           s1 s2 s3 s4 s5)
    /\ s1 = [Header 2 "us-east-1" "atx" false;
             Table (DataFrame_of_records [[("rule", JStr "open-port")]]);
             Header 2 "eu-west-1" "atx" false;
             Table DataFrame_empty].
Proof.
  destruct (@security_section_rendering "job" "state_of_cloud/"
              (Samples.world_of Samples.full_mappings)
              (snd (create_markdown_file SpecHelpers.helpers "job"
                      "state_of_cloud/"
                      (Samples.world_of Samples.full_mappings)))
              Samples.scan eq_refl eq_refl)
    as (s1 & s2 & s3 & s4 & s5 & Hw & _ & Hscan).
  exists s1, s2, s3, s4, s5. split; [exact Hw|].
  destruct (Hscan eq_refl) as (divisions & Hsec & -> & _).
  unfold Samples.scan, scan_of in Hsec. injection Hsec as Hsec.
  destruct divisions as [|[k1 r1] [|[k2 r2] [|]]]; try discriminate.
  simpl in Hsec. injection Hsec as <- Hr1 <- Hr2.
  destruct r1 as [|x1 [|]]; try discriminate. injection Hr1 as <-.
  destruct r2; [|discriminate]. reflexivity.
Defined.

(* ================================================================== *)
(** * Drift records with missing fields *)
(* ================================================================== *)

Section MissingFields.

Import ResultMonad.

Lemma add_cells_raises (a b : cell) (e : exn) :
  add_cells a b = Raise e -> is_type_error e = true.
Proof.
  unfold add_cells. destruct (is_na a || is_na b); [discriminate|].
  destruct a as [|[]]; destruct b as [|[]]; try discriminate;
    intros E; injection E as <-; reflexivity.
Qed.

Lemma mapM_raises {A B : Type} (f : A -> Result B) (l : list A) (e : exn) :
  mapM f l = Raise e -> exists x, In x l /\ f x = Raise e.
Proof.
  induction l as [|x l IH]; simpl; [discriminate|].
  destruct (f x) as [y|e'] eqn:Ex; simpl.
  - destruct (mapM f l) as [ys|e'] eqn:El; simpl; [discriminate|].
    intros E. injection E as ->. destruct (IH eq_refl) as (x' & Hin & Hx').
    exists x'. split; [now right|exact Hx'].
  - intros E. injection E as ->. exists x. split; [now left|exact Ex].
Qed.

Lemma series_add_str_raises (s : list cell) (lit : string) (e : exn) :
  series_add_str s lit = Raise e -> is_type_error e = true.
Proof.
  intros E. apply mapM_raises in E. destruct E as (c & _ & Hc).
  exact (add_cells_raises _ _ Hc).
Qed.







Lemma soft_cell_of (k : string) (r : pydict) :
  soft (cell_of k r) = tolerated k r.
Proof.
  unfold cell_of, tolerated. now destruct (dict_get k r) as [[]|].
Qed.




End MissingFields.





(* ================================================================== *)
(** * The command line *)
(* ================================================================== *)

Section CommandLine.

Variable H : Helpers.

Lemma bind_option_job_name (oa : string * string)
  (g : option string * option string) :
  snd (bind_option g oa)
  = if names_job (fst oa) then Some (snd oa) else snd g.
Proof.
  destruct oa as [opt arg], g as [i j]. reflexivity.
Qed.

Lemma fold_bind_option_ext (opts : list (string * string)) :
  forall g g',
    snd g = snd g' ->
    snd (fold_left bind_option opts g) = snd (fold_left bind_option opts g').
Proof.
  induction opts as [|oa opts IH]; intros g g' Hg; simpl; [exact Hg|].
  apply IH. rewrite !bind_option_job_name. now rewrite Hg.
Qed.

Lemma names_exclusive (opt : string) :
  names_job_unique_id opt = true -> names_job opt = false.
Proof.
  unfold names_job_unique_id, names_job. simpl.
  destruct (String.eqb_spec opt "-i") as [->|_]; [reflexivity|].
  destruct (String.eqb_spec opt "--job_unique_id") as [->|_];
    [reflexivity|discriminate].
Qed.

Lemma fold_bind_option_filter (opts : list (string * string)) :
  forall g,
    snd (fold_left bind_option opts g)
    = snd (fold_left bind_option (without_job_unique_id opts) g).
Proof.
  induction opts as [|oa opts IH]; intros g; simpl; [reflexivity|].
  destruct (names_job_unique_id (fst oa)) eqn:Hi; simpl.
  - rewrite <- IH. apply fold_bind_option_ext.
    rewrite bind_option_job_name. now rewrite (names_exclusive _ Hi).
  - apply IH.
Qed.

Lemma fold_bind_option_unnamed (opts : list (string * string)) :
  forall g,
    existsb (fun oa => names_job (fst oa)) opts = false ->
    snd (fold_left bind_option opts g) = snd g.
Proof.
  induction opts as [|oa opts IH]; intros g Hno; simpl; [reflexivity|].
  simpl in Hno. apply orb_false_iff in Hno. destruct Hno as [Hoa Hrest].
  rewrite (IH _ Hrest), bind_option_job_name. now rewrite Hoa.
Qed.

(** The script, once the command line is parsed: its outcome depends on
    the options only through the value bound to [job_name]. *)
Lemma main_parsed (argv : list string) (opts : list (string * string))
  (rest : list string) (w : World) :
  getopt_script argv = Ok (opts, rest) ->
  main H argv w
  = WorldMonad.try_except
      (WorldMonad.bind (os_makedirs "state_of_cloud/")
         (fun _ =>
            WorldMonad.bind
              (WorldMonad.lift (read_global "job_name" (bound_job_name opts)))
              (fun job_name =>
                 create_markdown_file H job_name "state_of_cloud/")))
      (fun e => WorldMonad.raise (Exception ("Error: " ++ exn_str e))) w.
Proof.
  intros Hparse. unfold main, getopt_script in *.
  unfold WorldMonad.try_except at 1 2.
  unfold WorldMonad.bind at 1 4. unfold WorldMonad.lift at 1.
  rewrite Hparse. reflexivity.
Qed.

End CommandLine.

(** C7.  When the parsed command line holds no [-j] / [--job_name]
    option, the script aborts on the first reference to [job_name]: the
    [NameError] is caught and re-raised as the single exception
    [Exception("Error: name 'job_name' is not defined")], the process
    ends with status 1, and no report is written. *)
Theorem missing_job_name_aborts (H : Helpers) (argv : list string)
  (opts : list (string * string)) (rest : list string) (w : World) :
  getopt_script argv = Ok (opts, rest) ->
  existsb (fun oa => names_job (fst oa)) opts = false ->
  exists w',
    main H argv w
    = (Raise (Exception "Error: name 'job_name' is not defined"), w')
    /\ run_script H argv w = (1, w')
    /\ written w' = written w.
Proof.
  intros Hparse Hno.
  assert (Hmain : main H argv w
                  = (Raise (Exception "Error: name 'job_name' is not defined"),
                     snd (os_makedirs "state_of_cloud/" w))).
  { rewrite (main_parsed H argv w Hparse). unfold bound_job_name.
    rewrite (fold_bind_option_unnamed opts _ Hno). reflexivity. }
  eexists. split; [exact Hmain|]. split.
  - unfold run_script. rewrite Hmain. reflexivity.
  - reflexivity.
Qed.

Lemma missing_job_name_aborts_witness :
  exists w',
    main SpecHelpers.helpers ["-i"; "42"]
      (Samples.world_of Samples.full_mappings)
    = (Raise (Exception "Error: name 'job_name' is not defined"), w')
    /\ run_script SpecHelpers.helpers ["-i"; "42"]
         (Samples.world_of Samples.full_mappings) = (1, w')
    /\ written w' = written (Samples.world_of Samples.full_mappings).
Proof.
  apply (@missing_job_name_aborts SpecHelpers.helpers ["-i"; "42"]
           [("-i", "42")] []); reflexivity.
Defined.

(** C10.  Two command lines whose parsed options agree once the
    [-i] / [--job_unique_id] options are left out (one of them may have
    none) give the same outcome on the same files and clock: the same
    report, or the same error. *)
Theorem job_unique_id_is_ignored (H : Helpers) (argv1 argv2 : list string)
  (opts1 opts2 : list (string * string)) (rest1 rest2 : list string)
  (w : World) :
  getopt_script argv1 = Ok (opts1, rest1) ->
  getopt_script argv2 = Ok (opts2, rest2) ->
  without_job_unique_id opts1 = without_job_unique_id opts2 ->
  main H argv1 w = main H argv2 w.
Proof.
  intros Hp1 Hp2 Hsame.
  rewrite (main_parsed H argv1 w Hp1), (main_parsed H argv2 w Hp2).
  unfold bound_job_name.
  rewrite (fold_bind_option_filter opts1), (fold_bind_option_filter opts2).
  now rewrite Hsame.
Qed.

Lemma job_unique_id_is_ignored_witness :
  main SpecHelpers.helpers
    ["-i"; "42"; "-j"; "nightly"; "--job_unique_id=7"]
    (Samples.world_of Samples.full_mappings)
  = main SpecHelpers.helpers ["-j"; "nightly"]
      (Samples.world_of Samples.full_mappings).
Proof.
  apply (@job_unique_id_is_ignored SpecHelpers.helpers
           ["-i"; "42"; "-j"; "nightly"; "--job_unique_id=7"]
           ["-j"; "nightly"]
           [("-i", "42"); ("-j", "nightly"); ("--job_unique_id", "7")]
           [("-j", "nightly")] [] []); reflexivity.
Defined.

(* ================================================================== *)
(** * Further properties: where each section comes from *)
(* ================================================================== *)

Ltac take_load_as Hrun E :=
  rewrite bind_json_load in Hrun; cbv beta in Hrun;
  match type of Hrun with
  | context [match ?f (mappings ?w) with _ => _ end] =>
      destruct (f (mappings w)) eqn:E;
      [discriminate Hrun|discriminate Hrun|]
  end.

Ltac take_lift_as Hrun E :=
  rewrite bind_lift in Hrun; cbv beta zeta in Hrun;
  match type of Hrun with
  | context [match ?r with Ok _ => _ | Raise _ => _ end] =>
      destruct r eqn:E; [|discriminate Hrun]
  end.

Ltac keep_section Hrun s Hs E0 :=
  take_lift Hrun;
  match goal with
  | E : (if _ then _ else Ok (new_line _ _)) = Ok _ |- _ =>
      pose proof E as E0;
      apply section_step in E as [s [-> Hs]];
      [|intros _ E'; split_binds E'; try (injection E' as <-);
        eauto using security_appends, cost_appends, resources_appends,
          drift_appends, actors_appends]
  end.

Section FrameShape.

Import ResultMonad.

Lemma dict_getitem_nonempty {V : Type} (d : list (string * V)) (k : string)
  (v : V) :
  dict_getitem d k = Ok v -> nonempty d = true.
Proof.
  destruct d; [discriminate|reflexivity].
Qed.

Lemma set_column_nonempty (label : string) (s : list cell) cols :
  nonempty (set_column label s cols) = true.
Proof.
  destruct cols as [|[l c] cols]; simpl; [reflexivity|].
  now destruct (String.eqb l label).
Qed.

Lemma dict_get_set_column_other (label k : string) (s : list cell) cols :
  k <> label ->
  dict_get k (set_column label s cols) = dict_get k cols.
Proof.
  intros Hk. induction cols as [|[l c] cols IH]; simpl.
  - destruct (String.eqb_spec k label); [contradiction|reflexivity].
  - destruct (String.eqb_spec l label) as [->|Hl]; simpl.
    + destruct (String.eqb_spec k label); [contradiction|reflexivity].
    + destruct (String.eqb_spec k l); [reflexivity|exact IH].
Qed.

Lemma mapM_length {A B : Type} (f : A -> Result B) (l : list A) :
  forall l', mapM f l = Ok l' -> List.length l' = List.length l.
Proof.
  induction l as [|x l IH]; intros l' E; simpl in E.
  - now injection E as <-.
  - destruct (f x); simpl in E; [|discriminate].
    destruct (mapM f l) as [ys|]; simpl in E; [|discriminate].
    injection E as <-. simpl. now rewrite (IH ys eq_refl).
Qed.

Lemma series_add_str_length (s : list cell) (lit : string) (t : list cell) :
  series_add_str s lit = Ok t -> List.length t = List.length s.
Proof. apply mapM_length. Qed.

Lemma series_add_length (s u t : list cell) :
  List.length s = List.length u ->
  series_add s u = Ok t -> List.length t = List.length s.
Proof.
  intros Hlen E. apply mapM_length in E.
  rewrite E, length_combine, <- Hlen. apply Nat.min_id.
Qed.

(** A path computation that succeeds on a non-empty extract returns the
    frame of the records with one column set: a path per record. *)
Lemma managed_drift_frame_ok_inv (records : list pydict) (df : DataFrame) :
  records <> [] ->
  managed_drift_frame records = Ok df ->
  exists paths,
    df = df_setitem (DataFrame_of_records records) "ResourcePath" paths
    /\ List.length paths = List.length records.
Proof.
  intros Hne E. unfold managed_drift_frame in E.
  assert (Hn : nonempty records = true)
    by (destruct records; [now elim Hne|reflexivity]).
  rewrite Hn in E. rewrite !df_getitem_records in E.
  destruct (existsb (dict_has "ModuleName") records);
    cbn [bind] in E; [|discriminate].
  destruct (series_add_str _ _) as [s1|] eqn:E1; cbn [bind] in E;
    [|discriminate].
  destruct (existsb (dict_has "ResourceType") records);
    cbn [bind] in E; [|discriminate].
  destruct (series_add s1 _) as [s2|] eqn:E2; cbn [bind] in E;
    [|discriminate].
  destruct (series_add_str s2 _) as [s3|] eqn:E3; cbn [bind] in E;
    [|discriminate].
  destruct (existsb (dict_has "ResourceName") records);
    cbn [bind] in E; [|discriminate].
  destruct (series_add s3 _) as [s4|] eqn:E4; cbn [bind] in E;
    [|discriminate].
  destruct (series_add_str s4 _) as [s5|] eqn:E5; cbn [bind] in E;
    [|discriminate].
  injection E as <-. exists s5. split; [reflexivity|].
  apply series_add_str_length in E1, E3, E5.
  rewrite length_map in E1.
  apply series_add_length in E2; [|now rewrite E1, length_map].
  apply series_add_length in E4; [|now rewrite E3, E2, E1, length_map].
  congruence.
Qed.

Lemma managed_drift_frame_not_empty (records : list pydict) (df : DataFrame) :
  records <> [] ->
  managed_drift_frame records = Ok df ->
  df_empty df = false.
Proof.
  intros Hne E.
  destruct (managed_drift_frame_ok_inv Hne E) as (paths & -> & _).
  unfold df_empty, df_setitem. cbn [index_len columns DataFrame_of_records].
  rewrite set_column_nonempty.
  destruct records; [now elim Hne|reflexivity].
Qed.

End FrameShape.

Section Provenance.

Variable H : Helpers.
Hypothesis H_appends : append_only H.

Lemma report_sections (job path : string) (w w' : World) :
  create_markdown_file H job path w = (Ok tt, w') ->
  exists nr act cost sec drift s1 s2 s3 s4 s5,
    new_resources_to_documents (mappings w) = Holds nr
    /\ resources_to_cloud_actions (mappings w) = Holds act
    /\ division_to_cost_estimates (mappings w) = Holds cost
    /\ division_to_security_scan (mappings w) = Holds sec
    /\ drift_resources_differences (mappings w) = Holds drift
    /\ w' = after_report w
              (report_document job path (clock w) s1 s2 s3 s4 s5)
    /\ security_section H sec s1
    /\ cost_section H nr cost s2
    /\ resources_section H nr cost s3
    /\ drift_section H drift s4
    /\ actor_section H act s5.
Proof.
  intros Hrun. unfold create_markdown_file in Hrun.
  take_load_as Hrun Fnr. take_load_as Hrun Fact. take_load_as Hrun Fcost.
  take_load_as Hrun Fsec. take_load_as Hrun Fdrift.
  take_lift_as Hrun Eframe. take_lift_as Hrun Ecounts.
  take_lift_as Hrun Eactors. take_lift_as Hrun Ecosts.
  keep_section Hrun s1 Hs1 E1.
  keep_section Hrun s2 Hs2 E2.
  keep_section Hrun s3 Hs3 E3.
  keep_section Hrun s4 Hs4 E4.
  keep_section Hrun s5 Hs5 E5.
  rewrite bind_datetime_now in Hrun. cbv beta zeta in Hrun.
  rewrite closing_items_appended in Hrun.
  unfold WorldMonad.bind, create_md_file, print in Hrun.
  cbn [mappings clock written stdout directories] in Hrun.
  injection Hrun as <-.
  do 5 eexists. exists s1, s2, s3, s4, s5.
  do 5 (split; [reflexivity|]).
  split.
  { rewrite !new_header_appends, !new_line_appends, !append_items_app.
    reflexivity. }
  split.
  { unfold security_section. destruct (truthy a2);
      [split_binds E1; eauto|now apply Hs1]. }
  split.
  { unfold cost_section. destruct (truthy a1) eqn:T.
    - split_binds Ecosts. injection Ecosts as <-.
      cbn [read_local ResultMonad.bind] in E2. split_binds E2.
      do 3 eexists. split; [reflexivity|]. split; eassumption.
    - now apply Hs2. }
  split.
  { unfold resources_section, resource_counts. exists a5.
    split; [exact Ecounts|].
    destruct a5 as [|c counts]; [now apply Hs3|].
    cbn [List.length Nat.ltb Nat.leb] in E3.
    destruct a7 as [d|]; [|discriminate E3].
    destruct (truthy a1) eqn:T; [|discriminate Ecosts].
    split; [reflexivity|].
    split_binds Ecosts. injection Ecosts as ->.
    cbn [read_local ResultMonad.bind] in E2, E3.
    split_binds E2.
    match goal with
    | Ek : dict_getitem d "cost_summary" = Ok _ |- _ =>
        rewrite (dict_getitem_nonempty _ _ Ek) in E3
    end.
    split_binds E3.
    do 3 eexists. split; [reflexivity|]. split; eassumption. }
  split.
  { unfold drift_section. destruct a3 as [|r records].
    - cbn in Eframe. injection Eframe as <-. now apply Hs4.
    - rewrite (managed_drift_frame_not_empty (records:=r :: records))
        in E4 by (discriminate || exact Eframe).
      cbn [negb] in E4. do 2 eexists. split; eassumption. }
  unfold actor_section. destruct (truthy a0) eqn:T.
  - split_binds Eactors. injection Eactors as <-.
    cbn [read_local ResultMonad.bind] in E5. split_binds E5.
    injection E5 as E5.
    do 3 eexists. split; [reflexivity|]. split; eassumption.
  - now apply Hs5.
Qed.

End Provenance.

(* ================================================================== *)
(** * Loading and the single write *)
(* ================================================================== *)

Lemma after_report_inj (w : World) (md1 md2 : MdUtils) :
  after_report w md1 = after_report w md2 -> md1 = md2.
Proof.
  intros E. apply (f_equal written) in E. unfold after_report in E.
  cbn [written] in E. apply app_inv_head in E. now injection E.
Qed.

(** C3.  When one of the five extract files is missing or is not JSON,
    [create_markdown_file] raises the loader's error and leaves the
    world untouched.  A run that raises at any stage leaves the world
    untouched, so no output file exists, partial or not.  A run that
    completes has changed the world by exactly one sink call followed by
    the printed line, and the document handed to the sink is the fully
    assembled one: closing items and table of contents in place and,
    when the rendering helpers only append, target [report.md] under the
    given directory and a body made of the introduction and the five
    sections, each under its heading and holding its placeholder or what
    its helper rendered.  Runs do complete: on five empty extracts,
    whatever the helpers are, the one document written is the report
    with the five placeholder sentences. *)
Theorem single_write_after_assembly (H : Helpers) (job path : string)
  (w : World) :
  (loadable (mappings w) = false ->
   exists e, create_markdown_file H job path w = (Raise e, w)
             /\ is_load_error e = true)
  /\ (forall e w',
        create_markdown_file H job path w = (Raise e, w') -> w' = w)
  /\ (forall w',
        create_markdown_file H job path w = (Ok tt, w') ->
        exists md items,
          w' = after_report w md
          /\ written w' = written w ++ [(file_name md, md)]
          /\ body md = items ++ closing_items (clock w)
          /\ table_of_contents md
             = Some ("Contents", toc_entries 1 (body md))
          /\ (append_only H ->
              file_name md = (path ++ "/report.md")%string
              /\ exists nr act cost sec drift s1 s2 s3 s4 s5,
                  new_resources_to_documents (mappings w) = Holds nr
                  /\ resources_to_cloud_actions (mappings w) = Holds act
                  /\ division_to_cost_estimates (mappings w) = Holds cost
                  /\ division_to_security_scan (mappings w) = Holds sec
                  /\ drift_resources_differences (mappings w) = Holds drift
                  /\ md = report_document job path (clock w) s1 s2 s3 s4 s5
                  /\ security_section H sec s1
                  /\ cost_section H nr cost s2
                  /\ resources_section H nr cost s3
                  /\ drift_section H drift s4
                  /\ actor_section H act s5))
  /\ (all_empty (mappings w) = true ->
      create_markdown_file H job path w
      = (Ok tt, after_report w (empty_report job path (clock w)))).
Proof.
  split; [|split; [|split]]; [| | |apply all_empty_report].
  - intros Hf.
    destruct (create_markdown_file_outcome H job path w)
      as [(e & Hrun & Hload)|(m & Hl & Hrun)]; [|congruence].
    exists e. split; [exact Hrun|now apply Hload].
  - intros e' w' Hrun'.
    destruct (create_markdown_file_outcome H job path w)
      as [(e & Hrun & Hload)|(m & Hl & Hrun)];
      rewrite Hrun in Hrun'; [congruence|discriminate].
  - intros w' Hrun'. pose proof Hrun' as Hrun''.
    destruct (create_markdown_file_outcome H job path w)
      as [(e & Hrun & Hload)|(m & Hl & Hrun)];
      rewrite Hrun in Hrun'; [discriminate|].
    injection Hrun' as <-.
    eexists. exists (body m). split; [reflexivity|].
    split; [reflexivity|]. split; [reflexivity|]. split; [reflexivity|].
    intros Happ.
    destruct (report_sections Happ _ _ _ Hrun'')
      as (nr & act & cost & sec & drift & s1 & s2 & s3 & s4 & s5 & Fnr & Fact
          & Fcost & Fsec & Fdrift & Hw & Hs1 & Hs2 & Hs3 & Hs4 & Hs5).
    apply after_report_inj in Hw.
    split; [now rewrite Hw|].
    exists nr, act, cost, sec, drift, s1, s2, s3, s4, s5.
    do 5 (split; [assumption|]). split; [exact Hw|].
    do 4 (split; [assumption|]). assumption.
Qed.

Lemma single_write_after_assembly_witness :
  (exists e,
      create_markdown_file SpecHelpers.helpers "job" "state_of_cloud/"
        (Samples.world_of MoreSamples.two_failures)
      = (Raise e, Samples.world_of MoreSamples.two_failures)
      /\ is_load_error e = true)
  /\ (exists md s1 s2 s3 s4 s5,
        snd (create_markdown_file SpecHelpers.helpers "job"
               "state_of_cloud/" (Samples.world_of Samples.full_mappings))
        = after_report (Samples.world_of Samples.full_mappings) md
        /\ md = report_document "job" "state_of_cloud/"
                  Samples.clock_reading s1 s2 s3 s4 s5).
Proof.
  split.
  - apply (proj1 (@single_write_after_assembly SpecHelpers.helpers "job"
                    "state_of_cloud/"
                    (Samples.world_of MoreSamples.two_failures))).
    reflexivity.
  - destruct (proj1 (proj2 (proj2
                (@single_write_after_assembly SpecHelpers.helpers "job"
                   "state_of_cloud/"
                   (Samples.world_of Samples.full_mappings))))
                (snd (create_markdown_file SpecHelpers.helpers "job"
                        "state_of_cloud/"
                        (Samples.world_of Samples.full_mappings)))
                eq_refl)
      as (md & items & Hw & _ & _ & _ & Hsections).
    destruct (Hsections spec_helpers_append_only)
      as (_ & nr & act & cost & sec & drift & s1 & s2 & s3 & s4 & s5 & _ & _
          & _ & _ & _ & Hmd & _).
    exists md, s1, s2, s3, s4, s5. split; [exact Hw|exact Hmd].
Defined.

(* ================================================================== *)
(** * Further properties: loading *)
(* ================================================================== *)

(** X1.  When some extract cannot be loaded, the exception is the one of
    the first such file in the order the script opens them (new
    resources, cloud actions, cost estimates, security scan, drift):
    [FileNotFoundError] with that file's path, or [JSONDecodeError] with
    the decoder's message; the files after it are not looked at and the
    world is left untouched.  No file fails exactly when all load. *)
Theorem load_error_order (H : Helpers) (job path : string) (w : World) :
  (forall e,
      first_load_error (mappings w) = Some e ->
      create_markdown_file H job path w = (Raise e, w))
  /\ (first_load_error (mappings w) = None <-> loadable (mappings w) = true).
Proof.
  split.
  - intros e. unfold first_load_error, create_markdown_file, load_failure.
    rewrite bind_json_load.
    destruct (new_resources_to_documents (mappings w));
      try (intros E; injection E as <-; reflexivity).
    rewrite bind_json_load.
    destruct (resources_to_cloud_actions (mappings w));
      try (intros E; injection E as <-; reflexivity).
    rewrite bind_json_load.
    destruct (division_to_cost_estimates (mappings w));
      try (intros E; injection E as <-; reflexivity).
    rewrite bind_json_load.
    destruct (division_to_security_scan (mappings w));
      try (intros E; injection E as <-; reflexivity).
    rewrite bind_json_load.
    destruct (drift_resources_differences (mappings w));
      try (intros E; injection E as <-; reflexivity).
    discriminate.
  - unfold first_load_error, loadable, load_failure.
    destruct (new_resources_to_documents (mappings w));
      destruct (resources_to_cloud_actions (mappings w));
      destruct (division_to_cost_estimates (mappings w));
      destruct (division_to_security_scan (mappings w));
      destruct (drift_resources_differences (mappings w));
      split; intros E; try discriminate E; reflexivity.
Qed.

Lemma load_error_order_witness :
  create_markdown_file SpecHelpers.helpers "job" "state_of_cloud/"
    (Samples.world_of MoreSamples.two_failures)
  = (Raise (FileNotFoundError "mappings/division-to-security-scan.json"),
     Samples.world_of MoreSamples.two_failures).
Proof.
  apply (proj1 (@load_error_order SpecHelpers.helpers "job"
                  "state_of_cloud/"
                  (Samples.world_of MoreSamples.two_failures))).
  reflexivity.
Defined.

(* ================================================================== *)
(** * Further properties: the sections of a completed report *)
(* ================================================================== *)

Lemma completed_run_headings_witness :
  exists md h1 h2 h3 h4 h5,
    written (snd (create_markdown_file SpecHelpers.helpers "job"
                    "state_of_cloud/"
                    (Samples.world_of Samples.full_mappings)))
    = written (Samples.world_of Samples.full_mappings)
      ++ [("state_of_cloud//report.md", md)]
    /\ headings (body md)
       = ["How to Read this Report"; "Identified Security Risks"] ++ h1
         ++ ["Calculable Cloud Costs (Monthly)"] ++ h2
         ++ ["Resources Outside of Terraform Control"] ++ h3
         ++ ["Drifted Resources Managed By Terraform"] ++ h4
         ++ ["Root Causes of Drift"; "Cloud Actors Causing Changes"] ++ h5
         ++ ["Disclaimer"].
Proof.
  apply (@completed_run_headings SpecHelpers.helpers "job" "state_of_cloud/"
           (Samples.world_of Samples.full_mappings)).
  - exact spec_helpers_append_only.
  - reflexivity.
Defined.

(** X3.  In every report that is generated, a section whose extract is
    empty holds exactly its placeholder sentence: [Security scan not
    run.], [Cost estimation not run.], [No new resources found!], [No
    controlled resources have drifted!], [No identified Cloud Actor
    actions.]. *)
Theorem placeholders_for_empty_extracts (H : Helpers) (job path : string)
  (w w' : World) (nr act cost sec : json) (drift : list pydict) :
  append_only H ->
  new_resources_to_documents (mappings w) = Holds nr ->
  resources_to_cloud_actions (mappings w) = Holds act ->
  division_to_cost_estimates (mappings w) = Holds cost ->
  division_to_security_scan (mappings w) = Holds sec ->
  drift_resources_differences (mappings w) = Holds drift ->
  create_markdown_file H job path w = (Ok tt, w') ->
  exists s1 s2 s3 s4 s5,
    w' = after_report w (report_document job path (clock w) s1 s2 s3 s4 s5)
    /\ (truthy sec = false -> s1 = [Line "Security scan not run."])
    /\ (truthy cost = false -> s2 = [Line "Cost estimation not run."])
    /\ (py_len nr = Ok 0 -> s3 = [Line "No new resources found!"])
    /\ (drift = [] -> s4 = [Line "No controlled resources have drifted!"])
    /\ (truthy act = false -> s5 = [Line "No identified Cloud Actor actions."]).
Proof.
  intros Happ Fnr Fact Fcost Fsec Fdrift Hrun.
  destruct (report_shape Happ _ _ _ Hrun)
    as (nr' & act' & cost' & sec' & drift' & s1 & s2 & s3 & s4 & s5 & Gnr
        & Gact & Gcost & Gsec & Gdrift & Hw & Hs1 & Hs2 & Hs3 & Hs4 & Hs5).
  rewrite Fnr in Gnr. injection Gnr as <-.
  rewrite Fact in Gact. injection Gact as <-.
  rewrite Fcost in Gcost. injection Gcost as <-.
  rewrite Fsec in Gsec. injection Gsec as <-.
  rewrite Fdrift in Gdrift. injection Gdrift as <-.
  exists s1, s2, s3, s4, s5. split; [exact Hw|].
  split; [|now repeat split].
  intros Hfalsy. unfold security_section in Hs1. now rewrite Hfalsy in Hs1.
Qed.

Lemma placeholders_for_empty_extracts_witness :
  exists s1 s2 s3 s4 s5,
    snd (create_markdown_file SpecHelpers.helpers "job" "state_of_cloud/"
           (Samples.world_of Samples.partial_drift))
    = after_report (Samples.world_of Samples.partial_drift)
        (report_document "job" "state_of_cloud/" Samples.clock_reading
           s1 s2 s3 s4 s5)
    /\ s1 = [Line "Security scan not run."]
    /\ s5 = [Line "No identified Cloud Actor actions."].
Proof.
  destruct (@placeholders_for_empty_extracts SpecHelpers.helpers "job"
              "state_of_cloud/" (Samples.world_of Samples.partial_drift)
              (snd (create_markdown_file SpecHelpers.helpers "job"
                      "state_of_cloud/"
                      (Samples.world_of Samples.partial_drift)))
              (JDict []) (JDict []) (JDict []) (JDict [])
              [Samples.vpc_record; Samples.nameless_record]
              spec_helpers_append_only eq_refl eq_refl eq_refl eq_refl
              eq_refl eq_refl)
    as (s1 & s2 & s3 & s4 & s5 & Hw & Hs1 & _ & _ & _ & Hs5).
  exists s1, s2, s3, s4, s5.
  split; [exact Hw|]. split; [now apply Hs1|now apply Hs5].
Defined.

(** X4.  A generated report whose new-resources section holds count
    tables was always built with cost data: the cost extract is truthy,
    the cost helper's mapping holds both [cost_summary] and
    [uncontrolled_cost_by_div_by_type_df], and the breakdown helper was
    given the table stored under the latter.  The [pd.DataFrame()]
    alternative of line 128 is therefore never what it receives. *)
Theorem breakdown_gets_cost_table (H : Helpers) (job path : string)
  (w w' : World) (nr cost : json) (counts : list (string * DataFrame)) :
  append_only H ->
  new_resources_to_documents (mappings w) = Holds nr ->
  division_to_cost_estimates (mappings w) = Holds cost ->
  create_markdown_file H job path w = (Ok tt, w') ->
  resource_counts H nr = Ok counts ->
  counts <> [] ->
  truthy cost = true
  /\ exists d summary costs m items,
      process_pricing_data H cost nr = Ok d
      /\ dict_getitem d "cost_summary" = Ok summary
      /\ dict_getitem d "uncontrolled_cost_by_div_by_type_df" = Ok costs
      /\ create_new_resource_tabular_breakdowns_with_cost H m counts costs
         = Ok (append_items m items).
Proof.
  intros Happ Fnr Fcost Hrun Hcounts Hne.
  destruct (report_sections Happ _ _ _ Hrun)
    as (nr' & act & cost' & sec & drift & s1 & s2 & s3 & s4 & s5 & Gnr
        & _ & Gcost & _ & _ & _ & _ & Hcost & Hres & _).
  rewrite Fnr in Gnr. injection Gnr as <-.
  rewrite Fcost in Gcost. injection Gcost as <-.
  destruct Hres as (counts' & Hcounts' & Hres).
  rewrite Hcounts in Hcounts'. injection Hcounts' as <-.
  destruct counts as [|c counts]; [now elim Hne|].
  destruct Hres as (Ht & d & costs & m & Hd & Hcosts & Hcall).
  split; [exact Ht|].
  unfold cost_section in Hcost. rewrite Ht in Hcost.
  destruct Hcost as (d' & summary & m' & Hd' & Hsummary & _).
  rewrite Hd in Hd'. injection Hd' as <-.
  exists d, summary, costs, m, s3. repeat split; assumption.
Qed.

Lemma breakdown_gets_cost_table_witness :
  truthy Samples.costs = true
  /\ exists d summary costs m items,
      process_pricing_data SpecHelpers.helpers Samples.costs
        Samples.one_bucket = Ok d
      /\ dict_getitem d "cost_summary" = Ok summary
      /\ dict_getitem d "uncontrolled_cost_by_div_by_type_df" = Ok costs
      /\ create_new_resource_tabular_breakdowns_with_cost
           SpecHelpers.helpers m
           [("by division",
             mkDataFrame 1
               [("division", [Val (JStr "aws")]);
                ("count", [Val (JInt 1)])]);
            ("by resource type",
             mkDataFrame 1
               [("type", [Val (JStr "s3_bucket")]);
                ("count", [Val (JInt 1)])])]
           costs
         = Ok (append_items m items).
Proof.
  apply (@breakdown_gets_cost_table SpecHelpers.helpers "job"
           "state_of_cloud/" (Samples.world_of Samples.full_mappings)
           (snd (create_markdown_file SpecHelpers.helpers "job"
                   "state_of_cloud/"
                   (Samples.world_of Samples.full_mappings)))
           Samples.one_bucket Samples.costs).
  - exact spec_helpers_append_only.
  - reflexivity.
  - reflexivity.
  - reflexivity.
  - reflexivity.
  - discriminate.
Defined.

(** X5.  In a generated report, each data-dependent section other than
    the placeholder is what its helper appended, fed with what the
    script computed before: the cost section with the table stored
    under [cost_summary] by the cost aggregation, the drift section
    with the frame carrying the derived paths, the actor section with
    the aggregated actions.  The drift helper is called exactly when the
    drift extract is non-empty. *)
Theorem sections_come_from_helpers (H : Helpers) (job path : string)
  (w w' : World) (nr act cost : json) (drift : list pydict) :
  append_only H ->
  new_resources_to_documents (mappings w) = Holds nr ->
  resources_to_cloud_actions (mappings w) = Holds act ->
  division_to_cost_estimates (mappings w) = Holds cost ->
  drift_resources_differences (mappings w) = Holds drift ->
  create_markdown_file H job path w = (Ok tt, w') ->
  exists s1 s2 s3 s4 s5,
    w' = after_report w (report_document job path (clock w) s1 s2 s3 s4 s5)
    /\ cost_section H nr cost s2
    /\ drift_section H drift s4
    /\ actor_section H act s5.
Proof.
  intros Happ Fnr Fact Fcost Fdrift Hrun.
  destruct (report_sections Happ _ _ _ Hrun)
    as (nr' & act' & cost' & sec' & drift' & s1 & s2 & s3 & s4 & s5 & Gnr
        & Gact & Gcost & _ & Gdrift & Hw & _ & Hcost & _ & Hdrift & Hact).
  rewrite Fnr in Gnr. injection Gnr as <-.
  rewrite Fact in Gact. injection Gact as <-.
  rewrite Fcost in Gcost. injection Gcost as <-.
  rewrite Fdrift in Gdrift. injection Gdrift as <-.
  exists s1, s2, s3, s4, s5. repeat split; assumption.
Qed.

Lemma sections_come_from_helpers_witness :
  exists s1 s2 s3 s4 s5,
    snd (create_markdown_file SpecHelpers.helpers "job" "state_of_cloud/"
           (Samples.world_of Samples.full_mappings))
    = after_report (Samples.world_of Samples.full_mappings)
        (report_document "job" "state_of_cloud/" Samples.clock_reading
           s1 s2 s3 s4 s5)
    /\ cost_section SpecHelpers.helpers Samples.one_bucket Samples.costs s2
    /\ drift_section SpecHelpers.helpers [Samples.vpc_record] s4
    /\ actor_section SpecHelpers.helpers Samples.actions s5.
Proof.
  apply (@sections_come_from_helpers SpecHelpers.helpers "job"
           "state_of_cloud/" (Samples.world_of Samples.full_mappings)
           (snd (create_markdown_file SpecHelpers.helpers "job"
                   "state_of_cloud/"
                   (Samples.world_of Samples.full_mappings)))
           Samples.one_bucket Samples.actions Samples.costs
           [Samples.vpc_record]).
  - exact spec_helpers_append_only.
  - reflexivity.
  - reflexivity.
  - reflexivity.
  - reflexivity.
  - reflexivity.
Defined.

(** X6.  The table of contents of a generated report is titled
    [Contents] and lists, in order, the six level-1 section titles, with
    whatever level-1 titles the helpers registered in between; the
    sub-heading [Cloud Actors Causing Changes] and the [Disclaimer]
    heading are emitted with [add_table_of_contents="n"] and are not
    listed by the script.  The report is titled after the job and
    targets [report.md] under the given directory. *)
Theorem contents_lists_sections (H : Helpers) (job path : string)
  (w w' : World) :
  append_only H ->
  create_markdown_file H job path w = (Ok tt, w') ->
  exists md s1 s2 s3 s4 s5,
    written w' = written w ++ [((path ++ "/report.md")%string, md)]
    /\ file_name md = (path ++ "/report.md")%string
    /\ title md = (job ++ " - State of Scanned Cloud Resources")%string
    /\ body md = report_body job s1 s2 s3 s4 s5 (clock w)
    /\ table_of_contents md
       = Some ("Contents",
               ["How to Read this Report"; "Identified Security Risks"]
               ++ toc_entries 1 s1
               ++ ["Calculable Cloud Costs (Monthly)"] ++ toc_entries 1 s2
               ++ ["Resources Outside of Terraform Control"]
               ++ toc_entries 1 s3
               ++ ["Drifted Resources Managed By Terraform"]
               ++ toc_entries 1 s4
               ++ ["Root Causes of Drift"] ++ toc_entries 1 s5).
Proof.
  intros Happ Hrun.
  destruct (report_shape Happ _ _ _ Hrun)
    as (nr & act & cost & sec & drift & s1 & s2 & s3 & s4 & s5 & _ & _
        & _ & _ & _ & -> & _).
  eexists. exists s1, s2, s3, s4, s5.
  split; [reflexivity|]. split; [reflexivity|]. split; [reflexivity|].
  split; [reflexivity|].
  unfold report_document. cbn [table_of_contents].
  unfold report_body, toc_entries, closing_items.
  repeat (rewrite flat_map_app; cbn [flat_map app Nat.leb]).
  rewrite app_nil_r. reflexivity.
Qed.

Lemma contents_lists_sections_witness :
  exists md s1 s2 s3 s4 s5,
    written (snd (create_markdown_file SpecHelpers.helpers "job"
                    "state_of_cloud/"
                    (Samples.world_of Samples.empty_mappings)))
    = written (Samples.world_of Samples.empty_mappings)
      ++ [("state_of_cloud//report.md", md)]
    /\ file_name md = "state_of_cloud//report.md"
    /\ title md = "job - State of Scanned Cloud Resources"
    /\ body md = report_body "job" s1 s2 s3 s4 s5 Samples.clock_reading
    /\ table_of_contents md
       = Some ("Contents",
               ["How to Read this Report"; "Identified Security Risks"]
               ++ toc_entries 1 s1
               ++ ["Calculable Cloud Costs (Monthly)"] ++ toc_entries 1 s2
               ++ ["Resources Outside of Terraform Control"]
               ++ toc_entries 1 s3
               ++ ["Drifted Resources Managed By Terraform"]
               ++ toc_entries 1 s4
               ++ ["Root Causes of Drift"] ++ toc_entries 1 s5).
Proof.
  apply (@contents_lists_sections SpecHelpers.helpers "job" "state_of_cloud/"
           (Samples.world_of Samples.empty_mappings)).
  - exact spec_helpers_append_only.
  - reflexivity.
Defined.

(* ================================================================== *)
(** * Further properties: the drift frame *)
(* ================================================================== *)

(** X7.  Deriving the paths keeps the frame of the records intact: one
    row per record, every column other than [ResourcePath] as
    [pd.DataFrame] built it, every column (the new one included) with
    one cell per record; and the frame is not empty, so a non-empty
    drift extract never gets the placeholder sentence. *)
Theorem drift_frame_keeps_records (records : list pydict) (df : DataFrame) :
  records <> [] ->
  managed_drift_frame records = Ok df ->
  index_len df = List.length records
  /\ df_empty df = false
  /\ (forall k,
        k <> "ResourcePath" ->
        df_getitem df k = df_getitem (DataFrame_of_records records) k)
  /\ (forall k col,
        df_getitem df k = Ok col -> List.length col = List.length records).
Proof.
  intros Hne E.
  pose proof (managed_drift_frame_not_empty Hne E) as Hempty.
  destruct (managed_drift_frame_ok_inv Hne E) as (paths & -> & Hlen).
  split; [reflexivity|]. split; [exact Hempty|]. split.
  - intros k Hk. unfold df_getitem, dict_getitem, df_setitem.
    cbn [columns]. now rewrite dict_get_set_column_other.
  - intros k col Hcol.
    destruct (String.eqb_spec k "ResourcePath") as [->|Hk].
    + rewrite df_getitem_setitem in Hcol. injection Hcol as <-. exact Hlen.
    + unfold df_getitem, dict_getitem, df_setitem in Hcol.
      cbn [columns] in Hcol.
      rewrite dict_get_set_column_other in Hcol by exact Hk.
      fold (dict_getitem (columns (DataFrame_of_records records)) k) in Hcol.
      fold (df_getitem (DataFrame_of_records records) k) in Hcol.
      rewrite df_getitem_records in Hcol.
      destruct (existsb (dict_has k) records); [|discriminate].
      injection Hcol as <-. apply length_map.
Qed.

Lemma drift_frame_keeps_records_witness :
  exists df,
    managed_drift_frame [Samples.vpc_record; Samples.nameless_record] = Ok df
    /\ index_len df = 2
    /\ df_empty df = false.
Proof.
  eexists. split; [reflexivity|].
  destruct (@drift_frame_keeps_records
              [Samples.vpc_record; Samples.nameless_record] _
              ltac:(discriminate) eq_refl) as (Hlen & Hempty & _).
  split; [exact Hlen|exact Hempty].
Defined.

Section NonStrings.

Import ResultMonad.

Lemma mapM_ok_each {A B : Type} (f : A -> Result B) (l : list A) (x : A) :
  forall l', mapM f l = Ok l' -> In x l -> exists y, f x = Ok y.
Proof.
  induction l as [|a l IH]; intros l' E Hin; [contradiction|].
  simpl in E. destruct (f a) as [y|] eqn:Ea; simpl in E; [|discriminate].
  destruct (mapM f l) as [ys|] eqn:El; simpl in E; [|discriminate].
  destruct Hin as [->|Hin]; [now exists y|now apply (IH ys)].
Qed.

Lemma add_cells_untolerated (c : cell) (lit : string) :
  soft c = false -> exists e, add_cells c (Val (JStr lit)) = Raise e.
Proof.
  destruct c as [|[]]; try discriminate; intros _; eexists; reflexivity.
Qed.

(** A module name that is neither a string nor [None] makes the first
    concatenation raise [TypeError]. *)
Lemma managed_drift_frame_non_string (records : list pydict) (r : pydict) :
  In r records ->
  tolerated "ModuleName" r = false ->
  exists msg, managed_drift_frame records = Raise (TypeError msg).
Proof.
  intros Hin Hbad. unfold managed_drift_frame.
  assert (Hn : nonempty records = true)
    by (destruct records; [contradiction|reflexivity]).
  rewrite Hn, df_getitem_records.
  assert (Hhas : existsb (dict_has "ModuleName") records = true).
  { apply existsb_exists. exists r. split; [exact Hin|].
    unfold tolerated in Hbad. unfold dict_has.
    now destruct (dict_get "ModuleName" r). }
  rewrite Hhas. cbn [bind].
  destruct (series_add_str _ _) as [s1|e] eqn:E1; cbn [bind].
  - exfalso. unfold series_add_str in E1.
    destruct (mapM_ok_each _ _ (cell_of "ModuleName" r) E1) as (y & Hy).
    + now apply in_map.
    + rewrite <- soft_cell_of in Hbad.
      destruct (@add_cells_untolerated _ (" (module) " ++ dq)%string Hbad)
        as (e & He).
      rewrite He in Hy. discriminate.
  - pose proof (series_add_str_raises _ _ E1) as He.
    destruct e; try discriminate. eexists. reflexivity.
Qed.

End NonStrings.

(** X8.  A drift record whose [ModuleName] is present but neither a
    string nor [null] (a number, a boolean, a list, an object) makes
    [create_markdown_file] raise [TypeError] before any section is
    built, whatever the other records and fields are; nothing is
    written. *)
Theorem non_string_module_name_raises (H : Helpers) (job path : string)
  (w : World) (nr act cost sec : json) (records : list pydict) (r : pydict) :
  new_resources_to_documents (mappings w) = Holds nr ->
  resources_to_cloud_actions (mappings w) = Holds act ->
  division_to_cost_estimates (mappings w) = Holds cost ->
  division_to_security_scan (mappings w) = Holds sec ->
  drift_resources_differences (mappings w) = Holds records ->
  In r records ->
  tolerated "ModuleName" r = false ->
  exists msg, create_markdown_file H job path w = (Raise (TypeError msg), w).
Proof.
  intros Fnr Fact Fcost Fsec Fdrift Hin Hbad.
  destruct (managed_drift_frame_non_string records r Hin Hbad) as (msg & E).
  exists msg. unfold create_markdown_file.
  rewrite bind_json_load, Fnr. rewrite bind_json_load, Fact.
  rewrite bind_json_load, Fcost. rewrite bind_json_load, Fsec.
  rewrite bind_json_load, Fdrift. cbv beta iota.
  rewrite bind_lift, E. reflexivity.
Qed.

Lemma non_string_module_name_raises_witness :
  exists msg,
    create_markdown_file SpecHelpers.helpers "job" "state_of_cloud/"
      (Samples.world_of MoreSamples.numbered_drift)
    = (Raise (TypeError msg), Samples.world_of MoreSamples.numbered_drift).
Proof.
  apply (@non_string_module_name_raises SpecHelpers.helpers "job"
           "state_of_cloud/" (Samples.world_of MoreSamples.numbered_drift)
           (JDict []) (JDict []) (JDict []) (JDict [])
           [Samples.vpc_record; MoreSamples.numbered_record]
           MoreSamples.numbered_record);
    try reflexivity.
  simpl. tauto.
Defined.

(* ================================================================== *)
(** * Further properties: the keys read from the cost mapping *)
(* ================================================================== *)

(** X9.  When the cost extract holds data and the mapping returned by
    the cost aggregation has no [cost_summary] entry, the run stops in
    the cost section with [KeyError('cost_summary')] and writes nothing
    (shown with the other extracts empty, so that nothing else can stop
    it before). *)
Theorem cost_summary_key_required (H : Helpers) (job path : string)
  (w : World) (nr act cost sec : json) (d : list (string * DataFrame)) :
  new_resources_to_documents (mappings w) = Holds nr ->
  resources_to_cloud_actions (mappings w) = Holds act ->
  division_to_cost_estimates (mappings w) = Holds cost ->
  division_to_security_scan (mappings w) = Holds sec ->
  drift_resources_differences (mappings w) = Holds [] ->
  py_len nr = Ok 0 ->
  truthy act = false ->
  truthy sec = false ->
  truthy cost = true ->
  process_pricing_data H cost nr = Ok d ->
  dict_get "cost_summary" d = None ->
  create_markdown_file H job path w = (Raise (KeyError "cost_summary"), w).
Proof.
  intros Fnr Fact Fcost Fsec Fdrift Hlen Hact Hsec Hcost Hd Hkey.
  unfold create_markdown_file.
  rewrite bind_json_load, Fnr. rewrite bind_json_load, Fact.
  rewrite bind_json_load, Fcost. rewrite bind_json_load, Fsec.
  rewrite bind_json_load, Fdrift. cbv beta iota.
  rewrite !bind_lift, Hlen.
  cbn [managed_drift_frame nonempty ResultMonad.bind Nat.ltb Nat.leb].
  rewrite Hact, Hcost, Hsec, Hd.
  cbn [ResultMonad.bind]. cbv beta iota zeta.
  rewrite !bind_lift. cbn [read_local ResultMonad.bind].
  unfold dict_getitem. rewrite Hkey. reflexivity.
Qed.

Lemma cost_summary_key_required_witness :
  create_markdown_file MoreSamples.keyless_helpers "job" "state_of_cloud/"
    (Samples.world_of MoreSamples.costs_only)
  = (Raise (KeyError "cost_summary"),
     Samples.world_of MoreSamples.costs_only).
Proof.
  apply (@cost_summary_key_required MoreSamples.keyless_helpers "job"
           "state_of_cloud/" (Samples.world_of MoreSamples.costs_only)
           (JDict []) (JDict []) Samples.costs (JDict []) []);
    reflexivity.
Defined.

(* ================================================================== *)
(** * Further properties: the [__main__] block *)
(* ================================================================== *)

Section MainOutcome.

Variable H : Helpers.

Lemma main_unparsed (argv : list string) (e : exn) (w : World) :
  getopt_script argv = Raise e ->
  main H argv w = (Raise (wrapped e), w).
Proof.
  intros Hparse. unfold main, getopt_script in *.
  unfold WorldMonad.try_except, WorldMonad.bind at 1, WorldMonad.lift.
  rewrite Hparse. reflexivity.
Qed.

Lemma main_without_job (argv : list string) (opts : list (string * string))
  (rest : list string) (w : World) :
  getopt_script argv = Ok (opts, rest) ->
  bound_job_name opts = None ->
  main H argv w
  = (Raise (wrapped (NameError "job_name")), with_output_directory w).
Proof.
  intros Hparse Hjob. rewrite (main_parsed H argv w Hparse), Hjob.
  reflexivity.
Qed.

Lemma main_with_job (argv : list string) (opts : list (string * string))
  (rest : list string) (job : string) (w : World) :
  getopt_script argv = Ok (opts, rest) ->
  bound_job_name opts = Some job ->
  main H argv w
  = match create_markdown_file H job "state_of_cloud/"
            (with_output_directory w) with
    | (Ok a, w') => (Ok a, w')
    | (Raise e, w') => (Raise (wrapped e), w')
    end.
Proof.
  intros Hparse Hjob. rewrite (main_parsed H argv w Hparse), Hjob.
  unfold WorldMonad.try_except, WorldMonad.bind, WorldMonad.lift,
    with_output_directory, read_global.
  cbn [os_makedirs fst snd].
  now destruct (create_markdown_file H job "state_of_cloud/" _) as [[a|e] w'].
Qed.

Lemma with_output_directory_made (w : World) :
  has_output_directory (with_output_directory w) = true.
Proof.
  unfold has_output_directory, with_output_directory, os_makedirs.
  cbn [snd directories].
  destruct (existsb (String.eqb "state_of_cloud/") (directories w)) eqn:E.
  - exact E.
  - rewrite existsb_app. cbn. now rewrite orb_true_r.
Qed.

Lemma with_output_directory_keeps (w : World) :
  mappings (with_output_directory w) = mappings w
  /\ clock (with_output_directory w) = clock w
  /\ written (with_output_directory w) = written w
  /\ stdout (with_output_directory w) = stdout w.
Proof. repeat split. Qed.

(** What a run of [create_markdown_file] does to the world: nothing when
    it raises, one sink call and one printed line when it completes. *)
Lemma create_markdown_file_effects (job path : string) (w : World)
  (r : Result unit) (w' : World) :
  create_markdown_file H job path w = (r, w') ->
  mappings w' = mappings w /\ clock w' = clock w
  /\ directories w' = directories w
  /\ match r with
     | Raise _ => written w' = written w /\ stdout w' = stdout w
     | Ok _ =>
         exists md,
           written w' = written w ++ [(file_name md, md)]
           /\ stdout w' = stdout w ++ ["Down creating markdown-styled report."]
     end.
Proof.
  intros Hrun.
  destruct (create_markdown_file_outcome H job path w)
    as [(e & Hrun' & _)|(m & _ & Hrun')];
    rewrite Hrun' in Hrun; injection Hrun as <- <-.
  - repeat split.
  - repeat split. eexists. split; reflexivity.
Qed.

End MainOutcome.

(** X10.  Whatever goes wrong, the only exception that leaves the script
    is [Exception("Error: " + str(original))], where [original] is the
    exception that stopped the run: the option parser's error, raised
    before anything is done; the [NameError] on [job_name] when no
    option bound it, raised once the directory is made; or the very
    exception [create_markdown_file] raised for the bound job name.  A
    failing run has status 1, has written no report and has printed
    nothing. *)
Theorem main_raises_only_wrapped (H : Helpers) (argv : list string)
  (w w' : World) (e : exn) :
  main H argv w = (Raise e, w') ->
  (exists original,
      e = Exception ("Error: " ++ exn_str original)
      /\ ((getopt_script argv = Raise original /\ w' = w)
          \/ (exists opts rest,
                 getopt_script argv = Ok (opts, rest)
                 /\ bound_job_name opts = None
                 /\ original = NameError "job_name"
                 /\ w' = with_output_directory w)
          \/ (exists opts rest job,
                 getopt_script argv = Ok (opts, rest)
                 /\ bound_job_name opts = Some job
                 /\ create_markdown_file H job "state_of_cloud/"
                      (with_output_directory w) = (Raise original, w'))))
  /\ run_script H argv w = (1, w')
  /\ written w' = written w
  /\ stdout w' = stdout w.
Proof.
  intros Hmain.
  assert (Hstatus : run_script H argv w = (1, w'))
    by (unfold run_script; now rewrite Hmain).
  destruct (getopt_script argv) as [[opts rest]|e0] eqn:Hparse.
  - destruct (bound_job_name opts) as [job|] eqn:Hjob.
    + rewrite (main_with_job H argv w Hparse Hjob) in Hmain.
      destruct (create_markdown_file H job "state_of_cloud/"
                  (with_output_directory w)) as [[a|e1] w1] eqn:Hrun;
        [discriminate|].
      injection Hmain as <- <-.
      destruct (create_markdown_file_effects H _ _ _ Hrun)
        as (_ & _ & _ & Hw & Hs).
      split.
      { exists e1. split; [reflexivity|]. right. right.
        exists opts, rest, job. now split; [|split]. }
      split; [exact Hstatus|]. split; [exact Hw|exact Hs].
    + rewrite (main_without_job H argv w Hparse Hjob) in Hmain.
      injection Hmain as <- <-.
      split.
      { exists (NameError "job_name"). split; [reflexivity|]. right. left.
        exists opts, rest. now split; [|split; [|split]]. }
      split; [exact Hstatus|]. split; reflexivity.
  - rewrite (main_unparsed H argv w Hparse) in Hmain.
    injection Hmain as <- <-.
    split.
    { exists e0. split; [reflexivity|]. left. now split. }
    split; [exact Hstatus|]. split; reflexivity.
Qed.

Lemma main_raises_only_wrapped_witness :
  (exists original,
      Exception "Error: [Errno 2] No such file or directory: 'mappings/division-to-security-scan.json'"
      = Exception ("Error: " ++ exn_str original)
      /\ ((getopt_script ["-j"; "nightly"] = Raise original
           /\ with_output_directory
                (Samples.world_of MoreSamples.two_failures)
              = Samples.world_of MoreSamples.two_failures)
          \/ (exists opts rest,
                 getopt_script ["-j"; "nightly"] = Ok (opts, rest)
                 /\ bound_job_name opts = None
                 /\ original = NameError "job_name"
                 /\ with_output_directory
                      (Samples.world_of MoreSamples.two_failures)
                    = with_output_directory
                        (Samples.world_of MoreSamples.two_failures))
          \/ (exists opts rest job,
                 getopt_script ["-j"; "nightly"] = Ok (opts, rest)
                 /\ bound_job_name opts = Some job
                 /\ create_markdown_file SpecHelpers.helpers job
                      "state_of_cloud/"
                      (with_output_directory
                         (Samples.world_of MoreSamples.two_failures))
                    = (Raise original,
                       with_output_directory
                         (Samples.world_of MoreSamples.two_failures)))))
  /\ run_script SpecHelpers.helpers ["-j"; "nightly"]
       (Samples.world_of MoreSamples.two_failures)
     = (1, with_output_directory
             (Samples.world_of MoreSamples.two_failures))
  /\ written (with_output_directory
                (Samples.world_of MoreSamples.two_failures))
     = written (Samples.world_of MoreSamples.two_failures)
  /\ stdout (with_output_directory
               (Samples.world_of MoreSamples.two_failures))
     = stdout (Samples.world_of MoreSamples.two_failures).
Proof.
  apply (@main_raises_only_wrapped SpecHelpers.helpers ["-j"; "nightly"]
           (Samples.world_of MoreSamples.two_failures)).
  reflexivity.
Defined.

(** X11.  The output directory [state_of_cloud/] is made as soon as the
    command line parses, before the job name is looked at: it exists
    after every such run, failed or not, and the run changes nothing
    else than the directory, the report and the printed line.  When the
    command line does not parse, the run ends before [os.makedirs] and
    the world is left as it was. *)
Theorem output_directory_effect (H : Helpers) (argv : list string)
  (w w' : World) (r : Result unit) :
  main H argv w = (r, w') ->
  (forall opts rest,
      getopt_script argv = Ok (opts, rest) ->
      has_output_directory w' = true
      /\ directories w' = directories (with_output_directory w)
      /\ mappings w' = mappings w /\ clock w' = clock w)
  /\ (forall e, getopt_script argv = Raise e -> w' = w).
Proof.
  intros Hmain. split.
  - intros opts rest Hparse.
    destruct (bound_job_name opts) as [job|] eqn:Hjob.
    + rewrite (main_with_job H argv w Hparse Hjob) in Hmain.
      destruct (create_markdown_file H job "state_of_cloud/"
                  (with_output_directory w)) as [r1 w1] eqn:Hrun.
      destruct (create_markdown_file_effects H _ _ _ Hrun)
        as (Hm & Hc & Hd & _).
      assert (w' = w1) by (destruct r1; now injection Hmain as _ <-).
      subst w1. unfold has_output_directory. rewrite Hd.
      split; [apply with_output_directory_made|].
      split; [reflexivity|]. split; [exact Hm|exact Hc].
    + rewrite (main_without_job H argv w Hparse Hjob) in Hmain.
      injection Hmain as _ <-.
      split; [apply with_output_directory_made|]. repeat split.
  - intros e Hparse. rewrite (main_unparsed H argv w Hparse) in Hmain.
    now injection Hmain as _ <-.
Qed.

Lemma output_directory_effect_witness :
  has_output_directory
    (snd (main SpecHelpers.helpers ["-i"; "42"]
            (Samples.world_of Samples.full_mappings))) = true.
Proof.
  destruct (@output_directory_effect SpecHelpers.helpers ["-i"; "42"]
              (Samples.world_of Samples.full_mappings)
              (snd (main SpecHelpers.helpers ["-i"; "42"]
                      (Samples.world_of Samples.full_mappings)))
              (fst (main SpecHelpers.helpers ["-i"; "42"]
                      (Samples.world_of Samples.full_mappings)))
              eq_refl) as (Hparsed & _).
  destruct (Hparsed [("-i", "42")] [] eq_refl) as (Hdir & _).
  exact Hdir.
Defined.

Section JobName.

Lemma fold_bind_option_job_filter (opts : list (string * string)) :
  forall g,
    snd (fold_left bind_option opts g)
    = snd (fold_left bind_option (job_name_options opts) g).
Proof.
  induction opts as [|oa opts IH]; intros g; simpl; [reflexivity|].
  destruct (names_job (fst oa)) eqn:Hj; simpl.
  - apply IH.
  - rewrite <- IH. apply fold_bind_option_ext.
    rewrite bind_option_job_name. now rewrite Hj.
Qed.

End JobName.

Lemma bound_job_name_last (before after : list (string * string))
  (opt arg : string) :
  names_job opt = true ->
  existsb (fun oa => names_job (fst oa)) after = false ->
  bound_job_name (before ++ (opt, arg) :: after) = Some arg.
Proof.
  intros Hopt Hafter. unfold bound_job_name.
  rewrite fold_left_app. cbn [fold_left].
  rewrite (fold_bind_option_unnamed after _ Hafter).
  rewrite bind_option_job_name. cbn [fst snd]. now rewrite Hopt.
Qed.

(** X12.  When the job name is given more than once, the last [-j] or
    [--job_name] option decides: the report is made for its argument,
    and the options before it, and the options after it that do not
    name the job, have no influence on the run. *)
Theorem last_job_name_wins (H : Helpers) (argv rest : list string)
  (before after : list (string * string)) (opt arg : string) (w : World) :
  getopt_script argv = Ok (before ++ (opt, arg) :: after, rest) ->
  names_job opt = true ->
  existsb (fun oa => names_job (fst oa)) after = false ->
  main H argv w
  = match create_markdown_file H arg "state_of_cloud/"
            (with_output_directory w) with
    | (Ok a, w') => (Ok a, w')
    | (Raise e, w') => (Raise (wrapped e), w')
    end.
Proof.
  intros Hparse Hopt Hafter.
  apply main_with_job with (opts := before ++ (opt, arg) :: after)
                           (rest := rest); [exact Hparse|].
  now apply bound_job_name_last.
Qed.

Lemma last_job_name_wins_witness :
  main SpecHelpers.helpers
    ["-j"; "first"; "-i"; "42"; "--job_name"; "second"; "-m"; "x"]
    (Samples.world_of Samples.full_mappings)
  = match create_markdown_file SpecHelpers.helpers "second"
            "state_of_cloud/"
            (with_output_directory
               (Samples.world_of Samples.full_mappings)) with
    | (Ok a, w') => (Ok a, w')
    | (Raise e, w') => (Raise (wrapped e), w')
    end.
Proof.
  apply (@last_job_name_wins SpecHelpers.helpers
           ["-j"; "first"; "-i"; "42"; "--job_name"; "second"; "-m"; "x"]
           [] [("-j", "first"); ("-i", "42")] [("-m", "x")]
           "--job_name" "second"
           (Samples.world_of Samples.full_mappings)); reflexivity.
Defined.

(** X13.  The script uses [getopt.getopt], which stops at the first
    argument that is not an option: when the command line starts with a
    positional argument, with a lone [-] or with [--], the options that
    follow are not read, the job name stays unbound and the run aborts
    with the wrapped [NameError], whatever follows. *)
Theorem options_after_positional_ignored (H : Helpers) (first : string)
  (rest : list string) (w : World) :
  String.prefix "-" first = false \/ first = "-" \/ first = "--" ->
  main H (first :: rest) w
  = (Raise (Exception "Error: name 'job_name' is not defined"),
     with_output_directory w).
Proof.
  intros Hfirst.
  assert (Hparse : exists args, getopt_script (first :: rest) = Ok ([], args)).
  { unfold getopt_script, Getopt.getopt. cbn [Getopt.getopt_loop].
    unfold Getopt.startswith.
    destruct Hfirst as [Hp | [ -> | -> ] ].
    - rewrite Hp. now eexists.
    - now eexists.
    - now eexists. }
  destruct Hparse as (args & Hparse).
  now rewrite (main_without_job H (first :: rest) w Hparse eq_refl).
Qed.

Lemma options_after_positional_ignored_witness :
  main SpecHelpers.helpers ["report"; "-j"; "nightly"]
    (Samples.world_of Samples.full_mappings)
  = (Raise (Exception "Error: name 'job_name' is not defined"),
     with_output_directory (Samples.world_of Samples.full_mappings)).
Proof.
  apply (@options_after_positional_ignored SpecHelpers.helpers "report"
           ["-j"; "nightly"]).
  left. reflexivity.
Defined.

(** X14.  Of the parsed options only [-j] / [--job_name] influence the
    run: two command lines that parse and carry the same job-name
    options, in the same order, give the same outcome.  In particular
    the option [-m], which the option string accepts, has no effect. *)
Theorem only_job_name_matters (H : Helpers) (argv1 argv2 : list string)
  (opts1 opts2 : list (string * string)) (rest1 rest2 : list string)
  (w : World) :
  getopt_script argv1 = Ok (opts1, rest1) ->
  getopt_script argv2 = Ok (opts2, rest2) ->
  job_name_options opts1 = job_name_options opts2 ->
  main H argv1 w = main H argv2 w.
Proof.
  intros Hp1 Hp2 Hsame.
  rewrite (main_parsed H argv1 w Hp1), (main_parsed H argv2 w Hp2).
  unfold bound_job_name.
  rewrite (fold_bind_option_job_filter opts1),
    (fold_bind_option_job_filter opts2).
  now rewrite Hsame.
Qed.

Lemma only_job_name_matters_witness :
  main SpecHelpers.helpers ["-m"; "x"; "-j"; "nightly"; "extra"]
    (Samples.world_of Samples.full_mappings)
  = main SpecHelpers.helpers ["-j"; "nightly"]
      (Samples.world_of Samples.full_mappings).
Proof.
  apply (@only_job_name_matters SpecHelpers.helpers
           ["-m"; "x"; "-j"; "nightly"; "extra"] ["-j"; "nightly"]
           [("-m", "x"); ("-j", "nightly")] [("-j", "nightly")]
           ["extra"] []); reflexivity.
Defined.

(** X15.  On five empty extracts the script succeeds whatever the helper
    modules do, because none of them is called: with the job name
    given, the status is 0, the directory is made, and the report
    written is the one made of the five placeholder sentences, titled
    after the job. *)
Theorem empty_extracts_need_no_helper (H : Helpers) (argv : list string)
  (opts : list (string * string)) (rest : list string) (job : string)
  (w : World) :
  getopt_script argv = Ok (opts, rest) ->
  bound_job_name opts = Some job ->
  all_empty (mappings w) = true ->
  run_script H argv w
  = (0, after_report (with_output_directory w)
          (empty_report job "state_of_cloud/" (clock w))).
Proof.
  intros Hparse Hjob Hempty. unfold run_script.
  rewrite (main_with_job H argv w Hparse Hjob).
  rewrite all_empty_report by exact Hempty.
  reflexivity.
Qed.

Lemma empty_extracts_need_no_helper_witness :
  run_script MoreSamples.keyless_helpers ["--job_name=nightly"; "-i"; "7"]
    (Samples.world_of Samples.empty_mappings)
  = (0, after_report
          (with_output_directory (Samples.world_of Samples.empty_mappings))
          (empty_report "nightly" "state_of_cloud/" Samples.clock_reading)).
Proof.
  apply (@empty_extracts_need_no_helper MoreSamples.keyless_helpers
           ["--job_name=nightly"; "-i"; "7"]
           [("--job_name", "nightly"); ("-i", "7")] [] "nightly");
    reflexivity.
Defined.

(** X16.  A run ends with status 0 only if the command line parsed, a
    job name was bound and [create_markdown_file] completed for it under
    [state_of_cloud/]; it has then made exactly one sink call and
    printed exactly one line.  With helpers that only append, the
    document written is titled [<job name> - State of Scanned Cloud
    Resources] and targets [state_of_cloud//report.md]. *)
Theorem successful_run_effects (H : Helpers) (argv : list string)
  (w w' : World) :
  run_script H argv w = (0, w') ->
  exists opts rest job md,
    getopt_script argv = Ok (opts, rest)
    /\ bound_job_name opts = Some job
    /\ create_markdown_file H job "state_of_cloud/" (with_output_directory w)
       = (Ok tt, w')
    /\ written w' = written w ++ [(file_name md, md)]
    /\ stdout w' = stdout w ++ ["Down creating markdown-styled report."]
    /\ (append_only H ->
        file_name md = "state_of_cloud//report.md"
        /\ title md = (job ++ " - State of Scanned Cloud Resources")%string).
Proof.
  unfold run_script. intros Hrun.
  destruct (main H argv w) as [r w1] eqn:Hmain.
  destruct r as [u|e]; [destruct u|discriminate]. injection Hrun as <-.
  destruct (getopt_script argv) as [[opts rest]|e0] eqn:Hparse;
    [|rewrite (main_unparsed H argv w Hparse) in Hmain; discriminate].
  destruct (bound_job_name opts) as [job|] eqn:Hjob;
    [|rewrite (main_without_job H argv w Hparse Hjob) in Hmain;
      discriminate].
  rewrite (main_with_job H argv w Hparse Hjob) in Hmain.
  destruct (create_markdown_file H job "state_of_cloud/"
              (with_output_directory w)) as [[u|e1] w2] eqn:Hcmf;
    [destruct u|discriminate].
  injection Hmain as <-.
  destruct (create_markdown_file_effects H _ _ _ Hcmf)
    as (_ & _ & _ & md & Hw & Hs).
  exists opts, rest, job, md.
  do 3 (split; [first [assumption|reflexivity]|]).
  split; [exact Hw|]. split; [exact Hs|].
  intros Happ.
  destruct (report_shape Happ _ _ _ Hcmf)
    as (nr & act & cost & sec & drift & s1 & s2 & s3 & s4 & s5 & _ & _
        & _ & _ & _ & Hshape & _).
  rewrite Hshape in Hw. unfold after_report in Hw. cbn [written] in Hw.
  apply app_inv_head in Hw. injection Hw as _ <-.
  split; reflexivity.
Qed.

Lemma successful_run_effects_witness :
  exists opts rest job md,
    getopt_script ["-j"; "nightly"] = Ok (opts, rest)
    /\ bound_job_name opts = Some job
    /\ create_markdown_file SpecHelpers.helpers job "state_of_cloud/"
         (with_output_directory (Samples.world_of Samples.full_mappings))
       = (Ok tt,
          snd (main SpecHelpers.helpers ["-j"; "nightly"]
                 (Samples.world_of Samples.full_mappings)))
    /\ written (snd (main SpecHelpers.helpers ["-j"; "nightly"]
                       (Samples.world_of Samples.full_mappings)))
       = written (Samples.world_of Samples.full_mappings)
         ++ [(file_name md, md)]
    /\ stdout (snd (main SpecHelpers.helpers ["-j"; "nightly"]
                      (Samples.world_of Samples.full_mappings)))
       = stdout (Samples.world_of Samples.full_mappings)
         ++ ["Down creating markdown-styled report."]
    /\ (append_only SpecHelpers.helpers ->
        file_name md = "state_of_cloud//report.md"
        /\ title md = (job ++ " - State of Scanned Cloud Resources")%string).
Proof.
  apply (@successful_run_effects SpecHelpers.helpers ["-j"; "nightly"]
           (Samples.world_of Samples.full_mappings)).
  reflexivity.
Defined.

(* ================================================================== *)
(** * Further properties: paths as identifiers *)
(* ================================================================== *)

Section PathIdentity.

Lemma length_append_str (a b : string) :
  String.length (a ++ b) = String.length a + String.length b.
Proof.
  induction a as [|c a IH]; simpl; [reflexivity|now rewrite IH].
Qed.

Lemma append_inj_length (a b c d : string) :
  String.length a = String.length b ->
  (a ++ c)%string = (b ++ d)%string -> a = b /\ c = d.
Proof.
  revert b. induction a as [|x a IH]; intros [|y b] Hlen E;
    try discriminate.
  - split; [reflexivity|exact E].
  - simpl in *. injection E as -> E. injection Hlen as Hlen.
    destruct (IH b Hlen E) as [-> ->]. split; reflexivity.
Qed.

Lemma append_cancel_r (a b c : string) :
  (a ++ c)%string = (b ++ c)%string -> a = b.
Proof.
  intros E. apply (@append_inj_length a b c c); [|exact E].
  apply (f_equal String.length) in E. rewrite !length_append_str in E. lia.
Qed.

Lemma has_quote_append (a b : string) :
  has_quote (a ++ b) = has_quote a || has_quote b.
Proof.
  induction a as [|c a IH]; simpl; [reflexivity|].
  now rewrite IH, orb_assoc.
Qed.

(** Two strings cut at their first double quote. *)
Lemma split_at_quote (a b x y : string) :
  has_quote a = false -> has_quote b = false ->
  (a ++ dq ++ x)%string = (b ++ dq ++ y)%string -> a = b /\ x = y.
Proof.
  revert b. induction a as [|c a IH]; intros [|d b] Ha Hb E; simpl in *.
  - injection E as ->. split; reflexivity.
  - injection E as <- _. now rewrite Ascii.eqb_refl in Hb.
  - injection E as -> _. now rewrite Ascii.eqb_refl in Ha.
  - apply orb_false_iff in Ha, Hb. destruct Ha as [_ Ha], Hb as [_ Hb].
    injection E as -> E. destruct (IH b Ha Hb E) as [-> ->].
    split; reflexivity.
Qed.

Lemma resource_path_inj (m t n m' t' n' : string) :
  has_quote m = false -> has_quote t = false -> has_quote n = false ->
  has_quote m' = false -> has_quote t' = false -> has_quote n' = false ->
  resource_path m t n = resource_path m' t' n' ->
  m = m' /\ t = t' /\ n = n'.
Proof.
  intros Hm Ht Hn Hm' Ht' Hn' E. unfold resource_path in E.
  rewrite <- (append_assoc_str m), <- (append_assoc_str m') in E.
  apply split_at_quote in E;
    [|rewrite has_quote_append, Hm; reflexivity
     |rewrite has_quote_append, Hm'; reflexivity].
  destruct E as [Em E]. apply append_cancel_r in Em.
  apply split_at_quote in E; [|assumption|assumption].
  destruct E as [Et E]. simpl in E. injection E as E.
  change (n ++ dq)%string with (n ++ dq ++ "")%string in E.
  change (n' ++ dq)%string with (n' ++ dq ++ "")%string in E.
  apply split_at_quote in E; [|assumption|assumption].
  destruct E as [En _]. now split; [|split].
Qed.

End PathIdentity.

Lemma path_cell_inj (r1 r2 : pydict) :
  quote_free_record r1 = true ->
  quote_free_record r2 = true ->
  path_cell r1 = path_cell r2 ->
  drift_fields r1 = drift_fields r2.
Proof.
  unfold quote_free_record, path_cell.
  destruct (drift_fields r1) as [[[m t] n]|]; [|discriminate].
  destruct (drift_fields r2) as [[[m' t'] n']|]; [|discriminate].
  intros H1 H2 E. apply negb_true_iff in H1, H2.
  apply orb_false_iff in H1, H2. destruct H1 as [H1 Hn], H2 as [H2 Hn'].
  apply orb_false_iff in H1, H2. destruct H1 as [Hm Ht], H2 as [Hm' Ht'].
  injection E as E.
  destruct (resource_path_inj _ _ _ _ _ _ Hm Ht Hn Hm' Ht' Hn' E)
    as (-> & -> & ->).
  reflexivity.
Qed.

Lemma quote_free_complete (records : list pydict) :
  forallb quote_free_record records = true ->
  forallb complete_record records = true.
Proof.
  induction records as [|r records IH]; [reflexivity|].
  cbn [forallb]. intros Hall. apply andb_true_iff in Hall.
  destruct Hall as [Hr Hall]. rewrite (IH Hall), andb_true_r.
  unfold quote_free_record in Hr. unfold complete_record.
  now destruct (drift_fields r).
Qed.

(** X17.  In the frame the script builds, the derived path identifies a
    drift record as long as the fields contain no double quote: when
    all records carry the three fields as quote-free strings, two rows
    with the same [ResourcePath] have the same module name, resource
    type and resource name.  Without that restriction it does not: the
    two records of [MoreSamples], which differ in type and name, get
    one and the same path from the script. *)
Theorem path_identifies_quote_free_records (records : list pydict)
  (df : DataFrame) (paths : list cell) (i j : nat) (ri rj : pydict) :
  (forallb quote_free_record records = true ->
   managed_drift_frame records = Ok df ->
   df_getitem df "ResourcePath" = Ok paths ->
   nth_error records i = Some ri ->
   nth_error records j = Some rj ->
   nth_error paths i = nth_error paths j ->
   drift_fields ri = drift_fields rj)
  /\ (exists both p,
        managed_drift_frame
          [MoreSamples.quoted_type_record; MoreSamples.quoted_name_record]
        = Ok (df_setitem
                (DataFrame_of_records
                   [MoreSamples.quoted_type_record;
                    MoreSamples.quoted_name_record])
                "ResourcePath" both)
        /\ both = [p; p]
        /\ drift_fields MoreSamples.quoted_type_record
           <> drift_fields MoreSamples.quoted_name_record).
Proof.
  split.
  - intros Hall Hframe Hcol Hi Hj Hsame.
    assert (Hne : records <> []) by (intros ->; now destruct i).
    rewrite (managed_drift_frame_complete Hne (quote_free_complete _ Hall))
      in Hframe.
    injection Hframe as <-. rewrite df_getitem_setitem in Hcol.
    injection Hcol as <-.
    rewrite !nth_error_map, Hi, Hj in Hsame. simpl in Hsame.
    injection Hsame as Hsame.
    apply path_cell_inj; [| |exact Hsame].
    + apply (proj1 (forallb_forall _ _) Hall ri).
      eapply nth_error_In; eassumption.
    + apply (proj1 (forallb_forall _ _) Hall rj).
      eapply nth_error_In; eassumption.
  - eexists. eexists. split; [reflexivity|]. split; [reflexivity|].
    discriminate.
Qed.

Lemma path_identifies_quote_free_records_witness :
  drift_fields (("Differences", JList []) :: Samples.vpc_record)
  = drift_fields Samples.vpc_record.
Proof.
  pose (kept := [("Differences", JList []) :: Samples.vpc_record;
                 Samples.vpc_record]).
  apply (proj1 (@path_identifies_quote_free_records kept
                  (df_setitem (DataFrame_of_records kept) "ResourcePath"
                     (map path_cell kept))
                  (map path_cell kept) 0 1
                  (("Differences", JList []) :: Samples.vpc_record)
                  Samples.vpc_record)); reflexivity.
Defined.

(* ================================================================== *)
(** * Further properties: spellings of the job name option *)
(* ================================================================== *)

Section Spellings.

Import ResultMonad.

Variable shortopts : string.
Variable longopts : list string.

Lemma do_shorts_prepend (optstring : string) (next : option string) :
  forall opts,
    Getopt.do_shorts opts optstring shortopts next
    = prepend opts (Getopt.do_shorts [] optstring shortopts next).
Proof.
  induction optstring as [|c optstring IH]; intros opts;
    cbn [Getopt.do_shorts].
  - cbn. now rewrite app_nil_r.
  - destruct (Getopt.short_has_arg c shortopts) as [[|]|e]; cbn [bind].
    + destruct optstring; [destruct next|]; reflexivity.
    + rewrite IH. rewrite (IH ([] ++ _)).
      destruct (Getopt.do_shorts [] optstring shortopts next) as [[o b]|e];
        cbn; [|reflexivity].
      now rewrite <- app_assoc.
    + reflexivity.
Qed.

Lemma do_longs_prepend (opt : string) (next : option string)
  (opts : list (string * string)) :
  Getopt.do_longs opts opt longopts next
  = prepend opts (Getopt.do_longs [] opt longopts next).
Proof.
  unfold Getopt.do_longs.
  destruct (Getopt.split_eq opt) as [[o a]|];
    destruct (Getopt.long_has_args _ longopts) as [[[|] name]|e];
    cbn [bind]; try reflexivity; try (destruct next; reflexivity).
Qed.

Lemma getopt_loop_prepend_bounded (n : nat) :
  forall args opts,
    List.length args <= n ->
    Getopt.getopt_loop opts args shortopts longopts
    = prepend opts (Getopt.getopt_loop [] args shortopts longopts).
Proof.
  induction n as [|n IH]; intros [|a rest] opts Hlen;
    try (cbn; now rewrite app_nil_r); [simpl in Hlen; lia|].
  cbn [Getopt.getopt_loop].
  destruct (Getopt.startswith a "-" && negb (String.eqb a "-"));
    [|cbn; now rewrite app_nil_r].
  destruct (String.eqb a "--"); [cbn; now rewrite app_nil_r|].
  set (step :=
         if Getopt.startswith a "--"
         then Getopt.do_longs [] (Getopt.drop 2 a) longopts (hd_error rest)
         else Getopt.do_shorts [] (Getopt.drop 1 a) shortopts
                (hd_error rest)).
  assert (Hstep :
    (if Getopt.startswith a "--"
     then Getopt.do_longs opts (Getopt.drop 2 a) longopts (hd_error rest)
     else Getopt.do_shorts opts (Getopt.drop 1 a) shortopts (hd_error rest))
    = prepend opts step).
  { unfold step. destruct (Getopt.startswith a "--");
      [apply do_longs_prepend|apply do_shorts_prepend]. }
  rewrite Hstep. clear Hstep.
  destruct step as [[o consumed]|e]; cbn [prepend bind]; [|reflexivity].
  destruct rest as [|b rest]; [reflexivity|].
  simpl in Hlen.
  destruct consumed.
  - rewrite (IH rest (opts ++ o)) by lia. rewrite (IH rest o) by lia.
    destruct (Getopt.getopt_loop [] rest shortopts longopts) as [[o2 r]|e];
      cbn; [|reflexivity].
    now rewrite <- app_assoc.
  - rewrite (IH (b :: rest) (opts ++ o)) by (simpl; lia).
    rewrite (IH (b :: rest) o) by (simpl; lia).
    destruct (Getopt.getopt_loop [] (b :: rest) shortopts longopts)
      as [[o2 r]|e]; cbn; [|reflexivity].
    now rewrite <- app_assoc.
Qed.

(** The options read so far do not influence how the rest of the
    command line is read. *)
Lemma getopt_loop_prepend (args : list string) (opts : list (string * string)) :
  Getopt.getopt_loop opts args shortopts longopts
  = prepend opts (Getopt.getopt_loop [] args shortopts longopts).
Proof.
  now apply getopt_loop_prepend_bounded with (n := List.length args).
Qed.

End Spellings.

Section JobNameSpellings.

Variable H : Helpers.

Lemma main_same_parse (argv1 argv2 : list string) (w : World) :
  match getopt_script argv1, getopt_script argv2 with
  | Ok (o1, _), Ok (o2, _) => bound_job_name o1 = bound_job_name o2
  | Raise e1, Raise e2 => e1 = e2
  | _, _ => False
  end ->
  main H argv1 w = main H argv2 w.
Proof.
  destruct (getopt_script argv1) as [[o1 r1]|e1] eqn:E1;
    destruct (getopt_script argv2) as [[o2 r2]|e2] eqn:E2;
    try contradiction.
  - intros Hsame.
    rewrite (main_parsed H argv1 w E1), (main_parsed H argv2 w E2).
    now rewrite Hsame.
  - intros ->.
    now rewrite (main_unparsed H argv1 w E1), (main_unparsed H argv2 w E2).
Qed.

(** Any spelling that makes the parser record the job name first and go
    on with the same arguments gives the outcome of [-j NAME]. *)
Lemma spelling_outcome (argv : list string) (opt name : string)
  (rest : list string) (w : World) :
  names_job opt = true ->
  getopt_script argv
  = Getopt.getopt_loop [(opt, name)] rest "j:i:m:"
      ["job_name="; "job_unique_id="] ->
  main H argv w = main H ("-j" :: name :: rest) w.
Proof.
  intros Hopt Hparse. apply main_same_parse. rewrite Hparse.
  assert (Hshort : getopt_script ("-j" :: name :: rest)
                   = Getopt.getopt_loop [("-j", name)] rest "j:i:m:"
                       ["job_name="; "job_unique_id="]) by reflexivity.
  rewrite Hshort.
  rewrite (getopt_loop_prepend _ _ rest [(opt, name)]).
  rewrite (getopt_loop_prepend _ _ rest [("-j", name)]).
  destruct (Getopt.getopt_loop [] rest _ _) as [[o r]|e]; cbn [prepend];
    [|reflexivity].
  unfold bound_job_name. cbn [app fold_left].
  apply fold_bind_option_ext. rewrite !bind_option_job_name.
  cbn [fst snd]. now rewrite Hopt.
Qed.

End JobNameSpellings.

(** X18.  The job name can be spelt in several ways with the same
    outcome as [-j NAME]: attached to the short option ([-jNAME], for a
    non-empty name), with the long option and [=] or a separate
    argument, and with any abbreviation of [--job_name] down to
    [--job_n].  Shorter abbreviations ([--j], [--jo], [--job], [--job_])
    are prefixes of [--job_unique_id] too: the parser rejects them and
    the script aborts with the wrapped parser error before making the
    directory. *)
Theorem job_name_spellings (H : Helpers) (name : string)
  (rest : list string) (w : World) :
  main H (("--job_name=" ++ name)%string :: rest) w
  = main H ("-j" :: name :: rest) w
  /\ main H ("--job_name" :: name :: rest) w
     = main H ("-j" :: name :: rest) w
  /\ (forall p,
        In p ["job_n"; "job_na"; "job_nam"] ->
        main H (("--" ++ p ++ "=" ++ name)%string :: rest) w
        = main H ("-j" :: name :: rest) w)
  /\ (name <> "" ->
      main H (("-j" ++ name)%string :: rest) w
      = main H ("-j" :: name :: rest) w)
  /\ (forall p,
        In p ["j"; "jo"; "job"; "job_"] ->
        main H (("--" ++ p ++ "=" ++ name)%string :: rest) w
        = (Raise (Exception ("Error: option --" ++ p
                             ++ " not a unique prefix")), w)).
Proof.
  split; [|split; [|split; [|split]]].
  - apply spelling_outcome with (opt := "--job_name"); [reflexivity|].
    destruct rest; reflexivity.
  - apply spelling_outcome with (opt := "--job_name"); reflexivity.
  - intros p Hp. simpl in Hp.
    destruct Hp as [<- | [<- | [<- | []]]];
      (apply spelling_outcome with (opt := "--job_name"); [reflexivity|]);
      destruct rest; reflexivity.
  - intros Hname. destruct name as [|c name]; [now elim Hname|].
    apply spelling_outcome with (opt := "-j"); [reflexivity|].
    destruct rest; reflexivity.
  - intros p Hp. simpl in Hp.
    destruct Hp as [<- | [<- | [<- | [<- | []]]]];
      (erewrite main_unparsed by (destruct rest; reflexivity));
      reflexivity.
Qed.

Lemma job_name_spellings_witness :
  main SpecHelpers.helpers ["-jnightly"; "-i"; "7"]
    (Samples.world_of Samples.full_mappings)
  = main SpecHelpers.helpers ["-j"; "nightly"; "-i"; "7"]
      (Samples.world_of Samples.full_mappings).
Proof.
  apply (proj1 (proj2 (proj2 (proj2
           (@job_name_spellings SpecHelpers.helpers "nightly" ["-i"; "7"]
              (Samples.world_of Samples.full_mappings)))))).
  discriminate.
Defined.
